(** * Session handling of the knowledge2 frontend

    A shallow embedding of the session logic of the frontend: the React
    context [AuthContext.jsx], the login page, the two dashboard pages, the
    navigation bar and the password-change page.

    Every [async] function of the source is a term of the monad [Async]:
    its synchronous effects (localStorage, React state setters, router
    pushes, console output) and its [await] points are the nodes of a tree,
    so that a function can be run up to its next [await] ([run]), resumed
    later in a world that other handlers have changed in the meantime, or
    run to completion against a network that settles every request
    ([exec]). *)

From stdpp Require Import base option list strings gmap.

Local Open Scope string_scope.

(** ** JavaScript values *)

(** The JSON values the code handles and the two empty values of
    JavaScript. Numbers do not occur in any value the session logic
    inspects and are left out. A character of a [string] stands for one
    code unit of the JavaScript string; the messages of the user
    interface are kept as they are written in the source, and their
    length is never taken. *)
#[warnings="-register-all"]
Inductive JsVal : Type :=
| JUndefined
| JNull
| JBool (b : bool)
| JStr (s : string)
| JObj (fields : gmap string JsVal).

(** [!!v] *)
Definition truthy (v : JsVal) : bool :=
  match v with
  | JUndefined | JNull => false
  | JBool b => b
  | JStr s => negb (String.eqb s "")
  | JObj _ => true
  end.

(** [String(v)], the conversion [localStorage.setItem] applies to its
    value. *)
Definition js_string (v : JsVal) : string :=
  match v with
  | JUndefined => "undefined"
  | JNull => "null"
  | JBool true => "true"
  | JBool false => "false"
  | JStr s => s
  | JObj _ => "[object Object]"
  end.

(** The result of [localStorage.getItem]: [null] when the key is absent. *)
Definition item_val (o : option string) : JsVal :=
  match o with
  | Some s => JStr s
  | None => JNull
  end.

(** [!!token] for the result of [getItem]. *)
Definition truthy_item (o : option string) : bool := truthy (item_val o).

(** A thrown value: [axios.isAxiosError(err)] and [err.response?.status]. *)
Record JsError : Type := {
  isAxiosError : bool;
  response_status : option nat
}.

(** What a property access on [null] or [undefined] throws. *)
Definition TypeError : JsError :=
  {| isAxiosError := false; response_status := None |}.

(** [err.response?.status === code] *)
Definition status_is (err : JsError) (code : nat) : bool :=
  match response_status err with
  | Some s => Nat.eqb s code
  | None => false
  end.

(** ** Requests and responses *)

Inductive Method : Type := GET | POST | PUT.

Inductive Body : Type :=
| NoBody
| FormBody (fields : list (string * string))
| JsonBody (v : JsVal).

Record Request : Type := {
  method : Method;
  url : string;
  headers : list (string * string);
  body : Body
}.

(** An HTTP response: [response.status] and its payload ([response.data]
    of axios, the parsed body of [fetch]). *)
Record Response : Type := {
  status : nat;
  data : JsVal
}.

(** [response.ok] of [fetch] *)
Definition ok (r : Response) : bool :=
  Nat.leb 200 (status r) && Nat.leb (status r) 299.

(** The promises the code awaits: an HTTP exchange, and the body read
    [response.json()]. *)
Inductive Awaited : Type :=
| Http (r : Request)
| ReadJson (r : Response).

(** How a promise settles. A body read fulfils with the parsed value in
    [data]. *)
Inductive Settled : Type :=
| Fulfilled (r : Response)
| Rejected (e : JsError).

(** ** The world a handler runs in *)

(** [S] is the React state of the component the handler belongs to. *)
Record World (S : Type) : Type := mkWorld {
  localStorage : gmap string string;
  state : S;
  history : list string;          (* router pushes, newest first *)
  network : list Request;         (* requests sent, newest first *)
  console : list string;          (* console.error, newest first *)
  timers : list (nat * string)    (* setTimeout(() => push(path), ms) *)
}.

Arguments mkWorld {S}.
Arguments localStorage {S}.
Arguments state {S}.
Arguments history {S}.
Arguments network {S}.
Arguments console {S}.
Arguments timers {S}.

(** The synchronous effects. *)
Inductive Action (S : Type) : Type :=
| SetItem (k v : string)
| RemoveItem (k : string)
| SetState (f : S -> S)
| Push (path : string)
| ConsoleError (msg : string)
| SetTimeoutPush (path : string) (ms : nat).

Arguments SetItem {S}.
Arguments RemoveItem {S}.
Arguments SetState {S}.
Arguments Push {S}.
Arguments ConsoleError {S}.
Arguments SetTimeoutPush {S}.

Definition apply_action {S} (a : Action S) (w : World S) : World S :=
  match a with
  | SetItem k v =>
      mkWorld (<[k := v]> (localStorage w)) (state w) (history w) (network w)
              (console w) (timers w)
  | RemoveItem k =>
      mkWorld (delete k (localStorage w)) (state w) (history w) (network w)
              (console w) (timers w)
  | SetState f =>
      mkWorld (localStorage w) (f (state w)) (history w) (network w)
              (console w) (timers w)
  | Push path =>
      mkWorld (localStorage w) (state w) (path :: history w) (network w)
              (console w) (timers w)
  | ConsoleError msg =>
      mkWorld (localStorage w) (state w) (history w) (network w)
              (msg :: console w) (timers w)
  | SetTimeoutPush path ms =>
      mkWorld (localStorage w) (state w) (history w) (network w)
              (console w) ((ms, path) :: timers w)
  end.

(** Starting to await a promise: an HTTP request leaves the browser. *)
Definition send {S} (p : Awaited) (w : World S) : World S :=
  match p with
  | Http r =>
      mkWorld (localStorage w) (state w) (history w) (r :: network w)
              (console w) (timers w)
  | ReadJson _ => w
  end.

(** Another component takes over the page: storage, history and logs are
    shared, the React state is the new component's. *)
Definition enter {S T} (w : World S) (t : T) : World T :=
  mkWorld (localStorage w) t (history w) (network w) (console w) (timers w).

(** ** Async functions *)

Inductive Async (S A : Type) : Type :=
| Ret (a : A)
| Throw (e : JsError)
| GetItem (k : string) (cont : option string -> Async S A)
| Do (a : Action S) (cont : Async S A)
| Await (p : Awaited) (cont : Settled -> Async S A).

Arguments Ret {S A}.
Arguments Throw {S A}.
Arguments GetItem {S A}.
Arguments Do {S A}.
Arguments Await {S A}.

Fixpoint bind {S A B} (m : Async S A) (f : A -> Async S B) : Async S B :=
  match m with
  | Ret a => f a
  | Throw e => Throw e
  | GetItem k cont => GetItem k (fun v => bind (cont v) f)
  | Do a cont => Do a (bind cont f)
  | Await p cont => Await p (fun o => bind (cont o) f)
  end.

Declare Scope async_scope.
Delimit Scope async_scope with async.
Bind Scope async_scope with Async.

Notation "x <- m ;; k" := (bind m (fun x => k))
  (at level 20, m at level 99, k at level 200, only parsing) : async_scope.
Notation "m ;; k" := (bind m (fun _ => k))
  (at level 100, k at level 200, right associativity, only parsing)
  : async_scope.

Local Open Scope async_scope.

(** [try { m } catch (err) { h err }] *)
Fixpoint try_catch {S A} (m : Async S A) (h : JsError -> Async S A)
  : Async S A :=
  match m with
  | Ret a => Ret a
  | Throw e => h e
  | GetItem k cont => GetItem k (fun v => try_catch (cont v) h)
  | Do a cont => Do a (try_catch cont h)
  | Await p cont => Await p (fun o => try_catch (cont o) h)
  end.

(** [try { m } finally { f }]: [f] runs on both exits, and the exit of
    [m] (value or exception) is kept. *)
Fixpoint try_finally {S A} (m : Async S A) (f : Async S unit) : Async S A :=
  match m with
  | Ret a => f ;; Ret a
  | Throw e => f ;; Throw e
  | GetItem k cont => GetItem k (fun v => try_finally (cont v) f)
  | Do a cont => Do a (try_finally cont f)
  | Await p cont => Await p (fun o => try_finally (cont o) f)
  end.

Definition try_catch_finally {S A} (m : Async S A)
    (h : JsError -> Async S A) (f : Async S unit) : Async S A :=
  try_finally (try_catch m h) f.

Definition getItem {S} (k : string) : Async S (option string) :=
  GetItem k Ret.

Definition perform {S} (a : Action S) : Async S unit := Do a (Ret tt).

(** [await p]: the value a fulfilled promise gives, the exception a
    rejected one throws. *)
Definition await {S} (p : Awaited) : Async S Response :=
  Await p (fun o =>
    match o with
    | Fulfilled r => Ret r
    | Rejected e => Throw e
    end).

(** [v.k] for a field name [k] that no primitive has: a [TypeError] on
    [null] and [undefined], [undefined] where the field is missing. *)
Definition get_prop {S} (v : JsVal) (k : string) : Async S JsVal :=
  match v with
  | JUndefined | JNull => Throw TypeError
  | JBool _ | JStr _ => Ret JUndefined
  | JObj fields => Ret (default JUndefined (fields !! k))
  end.

(** ** Running *)

Inductive Completion (A : Type) : Type :=
| Returned (a : A)
| Threw (e : JsError).

Arguments Returned {A}.
Arguments Threw {A}.

Inductive Status (S A : Type) : Type :=
| Finished (c : Completion A)
| Suspended (p : Awaited) (cont : Settled -> Async S A).

Arguments Finished {S A}.
Arguments Suspended {S A}.

(** Run to completion or to the next [await]: JavaScript runs a handler
    without interruption between two awaits. *)
Fixpoint run {S A} (m : Async S A) (w : World S) : World S * Status S A :=
  match m with
  | Ret a => (w, Finished (Returned a))
  | Throw e => (w, Finished (Threw e))
  | GetItem k cont => run (cont (localStorage w !! k)) w
  | Do a cont => run cont (apply_action a w)
  | Await p cont => (send p w, Suspended p cont)
  end.

(** A suspended function goes on when its promise settles, in the world
    as it is by then. *)
Definition resume {S A} (s : Status S A) (o : Settled) (w : World S)
  : World S * Status S A :=
  match s with
  | Finished c => (w, Finished c)
  | Suspended _ cont => run (cont o) w
  end.

(** The promise a suspended function waits for. *)
Definition pending {S A} (s : Status S A) : option Awaited :=
  match s with
  | Finished _ => None
  | Suspended p _ => Some p
  end.

(** Run to completion with nothing else interleaved; [net] settles every
    awaited promise. *)
Fixpoint exec {S A} (net : Awaited -> Settled) (m : Async S A) (w : World S)
  : World S * Completion A :=
  match m with
  | Ret a => (w, Returned a)
  | Throw e => (w, Threw e)
  | GetItem k cont => exec net (cont (localStorage w !! k)) w
  | Do a cont => exec net cont (apply_action a w)
  | Await p cont => exec net (cont (net p)) (send p w)
  end.

(** ** context/AuthContext.jsx *)

Module AuthContext.

(** [const [user, setUser] = useState(null)] and
    [const [loading, setLoading] = useState(true)] *)
Record AuthState : Type := {
  user : JsVal;
  loading : bool
}.

Definition initial : AuthState := {| user := JNull; loading := true |}.

Definition setUser (u : JsVal) : Async AuthState unit :=
  perform (SetState (fun s => {| user := u; loading := loading s |})).

Definition setLoading (b : bool) : Async AuthState unit :=
  perform (SetState (fun s => {| user := user s; loading := b |})).

Definition me_request (token : option string) : Request :=
  {| method := GET;
     url := "http://localhost:8000/api/v1/auth/me";
     headers := [("Authorization", "Bearer " ++ js_string (item_val token))];
     body := NoBody |}.

Definition fetchUser : Async AuthState unit :=
  try_catch_finally
    (token <- getItem "access_token" ;;
     if negb (truthy_item token) then
       setLoading false                                  (* return *)
     else
       response <- await (Http (me_request token)) ;;
       setUser (data response))
    (fun err =>
       if status_is err 401 then
         perform (RemoveItem "access_token") ;;
         perform (RemoveItem "refresh_token") ;;
         setUser JNull
       else Ret tt)
    (setLoading false).

Definition login_request (username password : string) : Request :=
  {| method := POST;
     url := "http://localhost:8000/api/v1/auth/login";
     headers := [("Content-Type", "application/x-www-form-urlencoded")];
     body := FormBody [("username", username); ("password", password)] |}.

Definition login (username password : string) : Async AuthState bool :=
  response <- await (Http (login_request username password)) ;;
  access_token <- get_prop (data response) "access_token" ;;
  if truthy access_token then
    perform (SetItem "access_token" (js_string access_token)) ;;
    refresh_token <- get_prop (data response) "refresh_token" ;;
    perform (SetItem "refresh_token" (js_string refresh_token)) ;;
    fetchUser ;;
    Ret true
  else Ret false.

Definition logout_request (token refreshToken : option string) : Request :=
  {| method := POST;
     url := "http://localhost:8000/api/v1/auth/logout";
     headers := [("Authorization", "Bearer " ++ js_string (item_val token));
                 ("Content-Type", "application/json")];
     body := JsonBody (JObj {[ "refresh_token" := item_val refreshToken ]}) |}.

Definition logout : Async AuthState unit :=
  try_catch_finally
    (token <- getItem "access_token" ;;
     refreshToken <- getItem "refresh_token" ;;
     if truthy_item token then
       await (Http (logout_request token refreshToken)) ;; Ret tt
     else Ret tt)
    (fun err => perform (ConsoleError "ログアウトエラー:"))
    (perform (RemoveItem "access_token") ;;
     perform (RemoveItem "refresh_token") ;;
     setUser JNull).

(** [useEffect(() => { fetchUser(); }, [])]: the start-up
    reconciliation, run once on the initial state. *)
Definition bootstrap : Async AuthState unit := fetchUser.

(** The context value handed to consumers. *)
Record Value : Type := {
  value_user : JsVal;
  value_loading : bool;
  isAuthenticated : bool
}.

Definition value (s : AuthState) : Value :=
  {| value_user := user s;
     value_loading := loading s;
     isAuthenticated := truthy (user s) |}.

End AuthContext.

(** ** pages/Login.jsx *)

Module Login.

Record State : Type := {
  username : string;
  password : string;
  error : string;
  loading : bool
}.

Definition initial : State :=
  {| username := ""; password := ""; error := ""; loading := false |}.

Definition setError (e : string) : Async State unit :=
  perform (SetState (fun s =>
    {| username := username s; password := password s; error := e;
       loading := loading s |})).

Definition setLoading (b : bool) : Async State unit :=
  perform (SetState (fun s =>
    {| username := username s; password := password s; error := error s;
       loading := b |})).

(** The handler reads [username] and [password] of the render it was
    created in. *)
Definition handleSubmit (username password : string) : Async State unit :=
  (* e.preventDefault() *)
  setLoading true ;;
  setError "" ;;
  try_catch_finally
    (response <- await (Http (AuthContext.login_request username password)) ;;
     access_token <- get_prop (data response) "access_token" ;;
     if truthy access_token then
       perform (SetItem "access_token" (js_string access_token)) ;;
       refresh_token <- get_prop (data response) "refresh_token" ;;
       perform (SetItem "refresh_token" (js_string refresh_token)) ;;
       perform (Push "/home")
     else Ret tt)
    (fun err =>
       setError "ログインに失敗しました。ユーザー名とパスワードを確認してください。")
    (setLoading false).

End Login.

(** ** app/home/page.tsx *)

Module HomePage.

Record State : Type := {
  user : JsVal;
  loading : bool;
  error : string;
  selectedFilter : string
}.

Definition initial : State :=
  {| user := JNull; loading := true; error := ""; selectedFilter := "全て" |}.

Definition setUser (u : JsVal) : Async State unit :=
  perform (SetState (fun s =>
    {| user := u; loading := loading s; error := error s;
       selectedFilter := selectedFilter s |})).

Definition setLoading (b : bool) : Async State unit :=
  perform (SetState (fun s =>
    {| user := user s; loading := b; error := error s;
       selectedFilter := selectedFilter s |})).

Definition setError (e : string) : Async State unit :=
  perform (SetState (fun s =>
    {| user := user s; loading := loading s; error := e;
       selectedFilter := selectedFilter s |})).

(** The effect of the first render. *)
Definition fetchUserInfo : Async State unit :=
  try_catch_finally
    (token <- getItem "access_token" ;;
     if negb (truthy_item token) then
       perform (Push "/login")                           (* return *)
     else
       response <- await (Http (AuthContext.me_request token)) ;;
       setUser (data response))
    (fun err =>
       if isAxiosError err && status_is err 401 then
         perform (RemoveItem "access_token") ;;
         perform (RemoveItem "refresh_token") ;;
         perform (Push "/login")
       else setError "ユーザー情報の取得に失敗しました。")
    (setLoading false).

Definition handleLogout : Async State unit :=
  try_catch_finally
    (token <- getItem "access_token" ;;
     refreshToken <- getItem "refresh_token" ;;
     if truthy_item token then
       await (Http (AuthContext.logout_request token refreshToken)) ;; Ret tt
     else Ret tt)
    (fun err => perform (ConsoleError "ログアウトエラー:"))
    (perform (RemoveItem "access_token") ;;
     perform (RemoveItem "refresh_token") ;;
     perform (Push "/login")).

(** What the component returns. *)
Inductive View : Type :=
| LoadingView
| ErrorView (msg : string)
| Dashboard (currentUser : JsVal).

Definition render (s : State) : View :=
  if loading s then LoadingView
  else if truthy (JStr (error s)) then ErrorView (error s)
  else Dashboard (user s).

End HomePage.

(** ** pages/Home.jsx (the react-router dashboard) *)

Module Home.

Record State : Type := {
  user : JsVal;
  loading : bool;
  error : string;
  selectedFilter : string
}.

Definition initial : State :=
  {| user := JNull; loading := true; error := ""; selectedFilter := "全て" |}.

Definition setUser (u : JsVal) : Async State unit :=
  perform (SetState (fun s =>
    {| user := u; loading := loading s; error := error s;
       selectedFilter := selectedFilter s |})).

Definition setLoading (b : bool) : Async State unit :=
  perform (SetState (fun s =>
    {| user := user s; loading := b; error := error s;
       selectedFilter := selectedFilter s |})).

Definition setError (e : string) : Async State unit :=
  perform (SetState (fun s =>
    {| user := user s; loading := loading s; error := e;
       selectedFilter := selectedFilter s |})).

Definition fetchUserInfo : Async State unit :=
  try_catch_finally
    (token <- getItem "access_token" ;;
     if negb (truthy_item token) then
       perform (Push "/login")                           (* return *)
     else
       response <- await (Http (AuthContext.me_request token)) ;;
       setUser (data response))
    (fun err =>
       if status_is err 401 then
         perform (RemoveItem "access_token") ;;
         perform (RemoveItem "refresh_token") ;;
         perform (Push "/login")
       else setError "ユーザー情報の取得に失敗しました。")
    (setLoading false).

Definition handleLogout : Async State unit :=
  try_catch_finally
    (token <- getItem "access_token" ;;
     refreshToken <- getItem "refresh_token" ;;
     if truthy_item token then
       await (Http (AuthContext.logout_request token refreshToken)) ;; Ret tt
     else Ret tt)
    (fun err => perform (ConsoleError "ログアウトエラー:"))
    (perform (RemoveItem "access_token") ;;
     perform (RemoveItem "refresh_token") ;;
     perform (Push "/login")).

End Home.

(** ** components/Navbar (the second component of App.jsx) *)

Module Navbar.

Record State : Type := {
  user : JsVal;
  isDropdownOpen : bool
}.

(** [useState(currentUser || null)] *)
Definition initial (currentUser : JsVal) : State :=
  {| user := if truthy currentUser then currentUser else JNull;
     isDropdownOpen := false |}.

Definition setUser (u : JsVal) : Async State unit :=
  perform (SetState (fun s =>
    {| user := u; isDropdownOpen := isDropdownOpen s |})).

Definition fetchUserInfo : Async State unit :=
  try_catch
    (token <- getItem "access_token" ;;
     if negb (truthy_item token) then Ret tt            (* return *)
     else
       response <- await (Http (AuthContext.me_request token)) ;;
       setUser (data response))
    (fun err => perform (ConsoleError "Failed to fetch user info:")).

(** [useEffect(() => { if (!currentUser) fetchUserInfo(); })] *)
Definition mount (currentUser : JsVal) : Async State unit :=
  if negb (truthy currentUser) then fetchUserInfo else Ret tt.

Definition handleLogout : Async State unit :=
  try_catch_finally
    (token <- getItem "access_token" ;;
     refreshToken <- getItem "refresh_token" ;;
     if truthy_item token then
       await (Http (AuthContext.logout_request token refreshToken)) ;; Ret tt
     else Ret tt)
    (fun err => perform (ConsoleError "ログアウトエラー:"))
    (perform (RemoveItem "access_token") ;;
     perform (RemoveItem "refresh_token") ;;
     perform (Push "/login")).

End Navbar.

(** ** app/change-password/page.tsx *)

Module ChangePasswordPage.

Record FormData : Type := {
  oldPassword : string;
  newPassword : string;
  confirmPassword : string
}.

Record State : Type := {
  formData : FormData;
  errors : gmap string JsVal;
  isLoading : bool;
  message : string
}.

Definition emptyForm : FormData :=
  {| oldPassword := ""; newPassword := ""; confirmPassword := "" |}.

Definition initial : State :=
  {| formData := emptyForm; errors := ∅; isLoading := false;
     message := "" |}.

Definition setFormData (f : FormData) : Async State unit :=
  perform (SetState (fun s =>
    {| formData := f; errors := errors s; isLoading := isLoading s;
       message := message s |})).

Definition setErrors (e : gmap string JsVal) : Async State unit :=
  perform (SetState (fun s =>
    {| formData := formData s; errors := e; isLoading := isLoading s;
       message := message s |})).

Definition setIsLoading (b : bool) : Async State unit :=
  perform (SetState (fun s =>
    {| formData := formData s; errors := errors s; isLoading := b;
       message := message s |})).

Definition setMessage (m : string) : Async State unit :=
  perform (SetState (fun s =>
    {| formData := formData s; errors := errors s;
       isLoading := isLoading s; message := m |})).

(** The object [newErrors] at the end of [validateForm]. *)
Definition newErrors (formData : FormData) : gmap string JsVal :=
  let e0 : gmap string JsVal := ∅ in
  let e1 :=
    if negb (truthy (JStr (oldPassword formData))) then
      <["oldPassword" := JStr "現在のパスワードを入力してください"]> e0
    else e0 in
  let e2 :=
    if negb (truthy (JStr (newPassword formData))) then
      <["newPassword" := JStr "新しいパスワードを入力してください"]> e1
    else if Nat.ltb (String.length (newPassword formData)) 6 then
      <["newPassword" := JStr "パスワードは6文字以上で入力してください"]> e1
    else e1 in
  let e3 :=
    if negb (truthy (JStr (confirmPassword formData))) then
      <["confirmPassword" := JStr "パスワードの確認を入力してください"]> e2
    else if negb (String.eqb (newPassword formData)
                             (confirmPassword formData)) then
      <["confirmPassword" := JStr "パスワードが一致しません"]> e2
    else e2 in
  if String.eqb (oldPassword formData) (newPassword formData) then
    <["newPassword" :=
        JStr "新しいパスワードは現在のパスワードと異なる必要があります"]> e3
  else e3.

Definition validateForm (formData : FormData) : Async State bool :=
  setErrors (newErrors formData) ;;
  (* Object.keys(newErrors).length === 0 *)
  Ret (Nat.eqb (size (newErrors formData)) 0).

Definition password_request (token : option string) (formData : FormData)
  : Request :=
  {| method := PUT;
     url := "http://localhost:8000/api/v1/auth/password";
     headers := [("Content-Type", "application/json");
                 ("Authorization", "Bearer " ++ js_string (item_val token))];
     body := JsonBody (JObj
               {[ "old_password" := JStr (oldPassword formData);
                  "new_password" := JStr (newPassword formData) ]}) |}.

(** [a || b] *)
Definition js_or (a b : JsVal) : JsVal := if truthy a then a else b.

(** The handler reads [formData] of the render it was created in. *)
Definition handleSubmit (formData : FormData) : Async State unit :=
  (* e.preventDefault() *)
  valid <- validateForm formData ;;
  if negb valid then Ret tt                              (* return *)
  else
    setIsLoading true ;;
    setMessage "" ;;
    try_catch_finally
      (token <- getItem "access_token" ;;
       if negb (truthy_item token) then
         perform (Push "/login")                         (* return *)
       else
         response <- await (Http (password_request token formData)) ;;
         if ok response then
           result <- await (ReadJson response) ;;
           setMessage "パスワードが正常に更新されました" ;;
           setFormData emptyForm ;;
           perform (SetTimeoutPush "/home" 2000)
         else
           errorData <- await (ReadJson response) ;;
           if Nat.eqb (status response) 400 then
             detail <- get_prop (data errorData) "detail" ;;
             setErrors
               {[ "oldPassword" :=
                    js_or detail (JStr "パスワードの更新に失敗しました") ]}
           else setMessage "パスワードの更新に失敗しました")
      (fun error =>
         perform (ConsoleError "Password update error:") ;;
         setMessage "ネットワークエラーが発生しました")
      (setIsLoading false).

(** What the component returns: the form, whatever the storage holds;
    the component has no effect of its own on mount, its [Navbar] child
    is mounted without a [currentUser]. *)
Inductive View : Type :=
| Form (formData : FormData) (errors : gmap string JsVal)
       (message : string) (isLoading : bool).

Definition render (s : State) : View :=
  Form (formData s) (errors s) (message s) (isLoading s).

(** The effects of mounting the page: those of [<Navbar />], which is
    given no [currentUser]. *)
Definition mount : Async Navbar.State unit := Navbar.mount JUndefined.

(** The three inputs of the form, by their [name] attribute:
    [handleChange] is attached to these inputs only. *)
Inductive Field : Type := OldPassword | NewPassword | ConfirmPassword.

Definition field_name (name : Field) : string :=
  match name with
  | OldPassword => "oldPassword"
  | NewPassword => "newPassword"
  | ConfirmPassword => "confirmPassword"
  end.

(** [{ ...prev, [name]: value }] *)
Definition set_field (name : Field) (value : string) (prev : FormData)
  : FormData :=
  match name with
  | OldPassword =>
      {| oldPassword := value; newPassword := newPassword prev;
         confirmPassword := confirmPassword prev |}
  | NewPassword =>
      {| oldPassword := oldPassword prev; newPassword := value;
         confirmPassword := confirmPassword prev |}
  | ConfirmPassword =>
      {| oldPassword := oldPassword prev; newPassword := newPassword prev;
         confirmPassword := value |}
  end.

Definition get_field (name : Field) (f : FormData) : string :=
  match name with
  | OldPassword => oldPassword f
  | NewPassword => newPassword f
  | ConfirmPassword => confirmPassword f
  end.

(** [errors[name]] *)
Definition error_of (errors : gmap string JsVal) (name : string) : JsVal :=
  default JUndefined (errors !! name).

(** [handleChange] for the event of input [name] with [e.target.value =
    value]; [shown] is the [errors] object of the render the handler was
    created in, the two setters take the state as it is when they run. *)
Definition handleChange (shown : gmap string JsVal) (name : Field)
    (value : string) : Async State unit :=
  perform (SetState (fun prev =>
    {| formData := set_field name value (formData prev);
       errors := errors prev; isLoading := isLoading prev;
       message := message prev |})) ;;
  if truthy (error_of shown (field_name name)) then
    perform (SetState (fun prev =>
      {| formData := formData prev;
         errors := <[field_name name := JStr ""]> (errors prev);
         isLoading := isLoading prev; message := message prev |}))
  else Ret tt.

End ChangePasswordPage.

(** ** Sessions *)

(** The check every call site makes before an authenticated request:
    [!!localStorage.getItem('access_token')]. *)
Definition has_session (storage : gmap string string) : bool :=
  truthy_item (storage !! "access_token").

(** Both persisted tokens are absent. *)
Definition store_empty (storage : gmap string string) : Prop :=
  storage !! "access_token" = None /\ storage !! "refresh_token" = None.

(** A start of the application: the given storage, nothing sent or
    pushed yet. *)
Definition boot {S} (storage : gmap string string) (s : S) : World S :=
  mkWorld storage s [] [] [] [].

(** The user record and the errors of the examples. *)
Definition alice : JsVal :=
  JObj {[ "id" := JStr "u1"; "username" := JStr "alice";
          "is_admin" := JBool false ]}.

Definition tokens (a r : string) : gmap string string :=
  {[ "access_token" := a; "refresh_token" := r ]}.

Definition err401 : JsError :=
  {| isAxiosError := true; response_status := Some 401 |}.
Definition err500 : JsError :=
  {| isAxiosError := true; response_status := Some 500 |}.
Definition err_network : JsError :=
  {| isAxiosError := true; response_status := None |}.

(** A network that settles every promise the same way. *)
Definition net_const (o : Settled) : Awaited -> Settled := fun _ => o.

(** The token fields of a login response, as [response.data.access_token]
    and [response.data.refresh_token] read them where [data] is not
    [null]. *)
Definition field_of (resp : Response) (k : string) : JsVal :=
  match data resp with
  | JObj fields => default JUndefined (fields !! k)
  | _ => JUndefined
  end.

(** The credential exchange succeeded: the request was fulfilled and its
    payload carries an access token. *)
Definition login_accepted (o : Settled) : bool :=
  match o with
  | Fulfilled resp => truthy (field_of resp "access_token")
  | Rejected _ => false
  end.

(** The Session Store without its two tokens. *)
Definition cleared (storage : gmap string string) : gmap string string :=
  delete "refresh_token" (delete "access_token" storage).

(** The storage after the two [setItem] of a successful login. *)
Definition saved (resp : Response) (storage : gmap string string)
  : gmap string string :=
  <["refresh_token" := js_string (field_of resp "refresh_token")]>
    (<["access_token" := js_string (field_of resp "access_token")]> storage).

(** The four checks of [validateForm], as one boolean. *)
Definition form_ok (f : ChangePasswordPage.FormData) : bool :=
  negb (String.eqb (ChangePasswordPage.oldPassword f) "") &&
  negb (Nat.ltb (String.length (ChangePasswordPage.newPassword f)) 6) &&
  String.eqb (ChangePasswordPage.newPassword f)
             (ChangePasswordPage.confirmPassword f) &&
  negb (String.eqb (ChangePasswordPage.oldPassword f)
                   (ChangePasswordPage.newPassword f)).

(** The scenario of the specification: the server answers the login of
    alice with the pair A1, R1 and the identity request with her
    record. *)
Definition scenario_net (p : Awaited) : Settled :=
  match p with
  | Http {| method := POST |} =>
      Fulfilled {| status := 200;
                   data := JObj {[ "access_token" := JStr "A1";
                                   "refresh_token" := JStr "R1" ]} |}
  | _ => Fulfilled {| status := 200; data := alice |}
  end.

(** ** What a handler may do to the storage *)

(** Every [setItem] of the handler is on a key of [sets] and every
    [removeItem] on a key of [removes], on every path through it. *)
Fixpoint footprint {S A} (sets removes : string -> Prop) (m : Async S A)
  : Prop :=
  match m with
  | Ret _ | Throw _ => True
  | GetItem _ cont => forall v, footprint sets removes (cont v)
  | Do a cont =>
      match a with
      | SetItem k _ => sets k
      | RemoveItem k => removes k
      | _ => True
      end /\ footprint sets removes cont
  | Await _ cont => forall o, footprint sets removes (cont o)
  end.

Definition status_footprint {S A} (sets removes : string -> Prop)
    (s : Status S A) : Prop :=
  match s with
  | Finished _ => True
  | Suspended _ cont => forall o, footprint sets removes (cont o)
  end.

(** The two keys of the session. *)
Definition token_key (k : string) : Prop :=
  k = "access_token" \/ k = "refresh_token".

Definition no_key (k : string) : Prop := False.


(** What a logout button leaves behind: the handler ended normally,
    both tokens are removed, the login route is pushed once, the revoke
    request went out exactly when an access token was stored, and the
    console got a line exactly when that request was rejected. *)
Definition logged_out {S} (net : Awaited -> Settled) (w : World S)
    (r : World S * Completion unit) : Prop :=
  let revoke := AuthContext.logout_request
                  (localStorage w !! "access_token")
                  (localStorage w !! "refresh_token") in
  snd r = Returned tt /\
  localStorage (fst r) = cleared (localStorage w) /\
  history (fst r) = "/login" :: history w /\
  state (fst r) = state w /\
  network (fst r) =
    (if has_session (localStorage w) then revoke :: network w
     else network w) /\
  console (fst r) =
    (if has_session (localStorage w) then
       match net (Http revoke) with
       | Fulfilled _ => console w
       | Rejected _ => "ログアウトエラー:" :: console w
       end
     else console w).

(** The message of the login page. *)
Definition login_failed : string :=
  "ログインに失敗しました。ユーザー名とパスワードを確認してください。".

(** The messages of the password form. *)
Definition must_differ : JsVal :=
  JStr "新しいパスワードは現在のパスワードと異なる必要があります".
Definition update_failed : string := "パスワードの更新に失敗しました".
Definition update_done : string := "パスワードが正常に更新されました".
Definition network_error : string := "ネットワークエラーが発生しました".

(** The effects of the children of the dashboard: the view of a loaded
    dashboard contains [<Navbar currentUser={user} />], the loading and
    error views contain no component with an effect. *)
Definition HomePage_children (v : HomePage.View) : Async Navbar.State unit :=
  match v with
  | HomePage.Dashboard currentUser => Navbar.mount currentUser
  | HomePage.LoadingView | HomePage.ErrorView _ => Ret tt
  end.

(** The state of the navigation bar in that view. *)
Definition HomePage_navbar (v : HomePage.View) : Navbar.State :=
  match v with
  | HomePage.Dashboard currentUser => Navbar.initial currentUser
  | HomePage.LoadingView | HomePage.ErrorView _ => Navbar.initial JUndefined
  end.

(** Every rejection the network produces is an error of axios. *)
Definition axios_network (net : Awaited -> Settled) : Prop :=
  forall (p : Awaited) (e : JsError),
    net p = Rejected e -> isAxiosError e = true.

(** A login answer as the service promises it: both tokens are
    non-empty strings. *)
Definition well_formed (resp : Response) : bool :=
  match field_of resp "access_token", field_of resp "refresh_token" with
  | JStr a, JStr r => negb (String.eqb a "") && negb (String.eqb r "")
  | _, _ => false
  end.

(** A login that did not get such an answer: the exchange was rejected
    (wrong credentials, no response) or its answer is malformed. *)
Definition login_fails (o : Settled) : bool :=
  match o with
  | Fulfilled resp => negb (well_formed resp)
  | Rejected _ => true
  end.

(** * Properties *)

Local Open Scope async_scope.

(** Unfold the combinators of a handler and run it. *)
Ltac async_unfold :=
  unfold try_catch_finally, getItem, perform, await; cbn.

(** A conjunction of closed equations, each decided by evaluation. *)
Ltac evaluate := repeat apply conj; reflexivity.

Example login_scenario :
  let r := exec scenario_net (AuthContext.login "alice" "pw")
             (boot ∅ AuthContext.initial) in
  snd r = Returned true /\
  localStorage (fst r) = tokens "A1" "R1" /\
  network (fst r) = [AuthContext.me_request (Some "A1");
                     AuthContext.login_request "alice" "pw"] /\
  AuthContext.user (state (fst r)) = alice.
Proof. cbv zeta. evaluate. Qed.

Example logout_scenario :
  let w := boot (tokens "A1" "R1")
             {| AuthContext.user := alice; AuthContext.loading := false |} in
  let r := exec (net_const (Rejected err_network)) AuthContext.logout w in
  localStorage (fst r) = ∅ /\
  AuthContext.user (state (fst r)) = JNull /\
  network (fst r) = [AuthContext.logout_request (Some "A1") (Some "R1")].
Proof. cbv zeta. evaluate. Qed.

Example validateForm_examples :
  form_ok {| ChangePasswordPage.oldPassword := "secret1";
             ChangePasswordPage.newPassword := "secret2";
             ChangePasswordPage.confirmPassword := "secret2" |} = true /\
  dom (ChangePasswordPage.newErrors
         {| ChangePasswordPage.oldPassword := "";
            ChangePasswordPage.newPassword := "";
            ChangePasswordPage.confirmPassword := "" |}) =
    {[ "oldPassword"; "newPassword"; "confirmPassword" ]} /\
  ChangePasswordPage.newErrors
    {| ChangePasswordPage.oldPassword := "secret";
       ChangePasswordPage.newPassword := "secret";
       ChangePasswordPage.confirmPassword := "secret" |} !! "newPassword" =
    Some (JStr "新しいパスワードは現在のパスワードと異なる必要があります").
Proof. evaluate. Qed.

(** ** Storage *)

Lemma store_empty_cleared (storage : gmap string string) :
  store_empty (cleared storage).
Proof.
  split; unfold cleared.
  - rewrite lookup_delete_ne by done. apply lookup_delete_eq.
  - apply lookup_delete_eq.
Qed.

Lemma cleared_no_session (storage : gmap string string) :
  has_session (cleared storage) = false.
Proof.
  unfold has_session. now rewrite (proj1 (store_empty_cleared storage)).
Qed.

Lemma truthy_js_string (v : JsVal) :
  truthy v = true -> truthy_item (Some (js_string v)) = true.
Proof. destruct v as [| |[]|s|f]; cbn; auto; discriminate. Qed.

Lemma has_session_tokens (a r : string) :
  has_session (tokens a r) = negb (String.eqb a "").
Proof.
  unfold has_session, tokens.
  rewrite lookup_insert_eq. reflexivity.
Qed.

(** ** Logging out *)

(** What resuming a logout leaves behind, whatever the world has become
    and however the revoke call settled. *)
Lemma logout_resume (w w' : World AuthContext.AuthState) (o : Settled) :
  has_session (localStorage w) = true ->
  let r := resume (snd (run AuthContext.logout w)) o w' in
  snd r = Finished (Returned tt) /\
  localStorage (fst r) = cleared (localStorage w') /\
  AuthContext.user (state (fst r)) = JNull /\
  history (fst r) = history w' /\
  network (fst r) = network w'.
Proof.
  unfold AuthContext.logout, has_session. async_unfold. intros ->. cbn.
  destruct o; cbn; auto.
Qed.

Lemma logout_exec net (w : World AuthContext.AuthState) :
  localStorage (fst (exec net AuthContext.logout w)) =
  cleared (localStorage w).
Proof.
  unfold AuthContext.logout. async_unfold.
  destruct (truthy_item (localStorage w !! "access_token")); cbn;
    [destruct (net _); cbn|]; reflexivity.
Qed.

Lemma handleLogout_exec net (w : World HomePage.State) :
  localStorage (fst (exec net HomePage.handleLogout w)) =
  cleared (localStorage w).
Proof.
  unfold HomePage.handleLogout. async_unfold.
  destruct (truthy_item (localStorage w !! "access_token")); cbn;
    [destruct (net _); cbn|]; reflexivity.
Qed.

Lemma Home_handleLogout_exec net (w : World Home.State) :
  localStorage (fst (exec net Home.handleLogout w)) =
  cleared (localStorage w).
Proof.
  unfold Home.handleLogout. async_unfold.
  destruct (truthy_item (localStorage w !! "access_token")); cbn;
    [destruct (net _); cbn|]; reflexivity.
Qed.

Lemma Navbar_handleLogout_exec net (w : World Navbar.State) :
  localStorage (fst (exec net Navbar.handleLogout w)) =
  cleared (localStorage w).
Proof.
  unfold Navbar.handleLogout. async_unfold.
  destruct (truthy_item (localStorage w !! "access_token")); cbn;
    [destruct (net _); cbn|]; reflexivity.
Qed.

(** C6. After a login followed by a logout the Session Store holds
    neither token, however the login went and however the revoke call
    settles (fulfilled, rejected by the server, or failed without a
    response as a timeout does). This holds for the context's [login] and
    [logout], and for the login page followed by the logout button of
    each dashboard and of the navigation bar. *)
Theorem logout_after_login_empties_store
    (username password : string) (net1 net2 : Awaited -> Settled) :
  (forall w : World AuthContext.AuthState,
     let w1 := fst (exec net1 (AuthContext.login username password) w) in
     store_empty (localStorage (fst (exec net2 AuthContext.logout w1)))) /\
  (forall w : World Login.State,
     let w1 := fst (exec net1 (Login.handleSubmit username password) w) in
     store_empty (localStorage
       (fst (exec net2 HomePage.handleLogout (enter w1 HomePage.initial)))) /\
     store_empty (localStorage
       (fst (exec net2 Home.handleLogout (enter w1 Home.initial)))) /\
     store_empty (localStorage
       (fst (exec net2 Navbar.handleLogout
               (enter w1 (Navbar.initial JUndefined)))))).
Proof.
  split; [intros w w1|intros w w1; split; [|split]].
  - rewrite logout_exec. apply store_empty_cleared.
  - rewrite handleLogout_exec. apply store_empty_cleared.
  - rewrite Home_handleLogout_exec. apply store_empty_cleared.
  - rewrite Navbar_handleLogout_exec. apply store_empty_cleared.
Qed.

(** C7, as the code has it. With an access token stored, [logout] sends
    the revoke call and is suspended on it with the storage untouched;
    the two tokens are removed only when the call has settled, and then
    for every outcome alike: [logout] returns normally and leaves the
    same storage and the same cache. Without an access token no call is
    made and the storage is cleared at once. *)
Theorem logout_clears_when_revoke_settles
    (w : World AuthContext.AuthState) :
  let revoke := Http (AuthContext.logout_request
                        (localStorage w !! "access_token")
                        (localStorage w !! "refresh_token")) in
  let r := run AuthContext.logout w in
  (has_session (localStorage w) = true ->
     fst r = send revoke w /\
     pending (snd r) = Some revoke /\
     localStorage (fst r) = localStorage w /\
     forall (o : Settled) (w' : World AuthContext.AuthState),
       let r' := resume (snd r) o w' in
       snd r' = Finished (Returned tt) /\
       localStorage (fst r') = cleared (localStorage w') /\
       AuthContext.user (state (fst r')) = JNull) /\
  (has_session (localStorage w) = false ->
     snd r = Finished (Returned tt) /\
     network (fst r) = network w /\
     localStorage (fst r) = cleared (localStorage w) /\
     AuthContext.user (state (fst r)) = JNull).
Proof.
  intros revoke r. split; intros Hs.
  - split; [|split; [|split]].
    + subst r revoke. unfold AuthContext.logout. async_unfold.
      unfold has_session in Hs. now rewrite Hs.
    + subst r revoke. unfold AuthContext.logout. async_unfold.
      unfold has_session in Hs. now rewrite Hs.
    + subst r. unfold AuthContext.logout. async_unfold.
      unfold has_session in Hs. now rewrite Hs.
    + intros o w' r'. destruct (logout_resume w w' o Hs) as (? & ? & ? & _).
      auto.
  - subst r. unfold AuthContext.logout. async_unfold.
    unfold has_session in Hs. rewrite Hs. cbn. auto.
Qed.

Lemma logout_clears_when_revoke_settles_witness :
  let w := boot (tokens "A1" "R1") AuthContext.initial in
  let r := run AuthContext.logout w in
  localStorage (fst r) = localStorage w /\
  forall o : Settled,
    localStorage (fst (resume (snd r) o (fst r))) = cleared (localStorage w).
Proof.
  intros w r.
  destruct (proj1 (logout_clears_when_revoke_settles w) eq_refl)
    as (_ & _ & Hkeep & Hdone).
  split; [exact Hkeep|].
  intros o. destruct (Hdone o (fst r)) as (_ & H & _). exact H.
Defined.

(** C7, as stated, fails: with a session stored, [logout] is suspended on
    the revoke call while both tokens are still in the storage. *)
Lemma logout_does_not_clear_immediately :
  ~ (forall w : World AuthContext.AuthState,
       pending (snd (run AuthContext.logout w)) <> None ->
       store_empty (localStorage (fst (run AuthContext.logout w)))).
Proof.
  intros H.
  specialize (H (boot (tokens "A1" "R1") AuthContext.initial)).
  destruct H as [H _]; [discriminate|].
  vm_compute in H. discriminate.
Qed.

(** ** Refreshing the identity *)

Lemma fetchUser_no_session (w : World AuthContext.AuthState) :
  has_session (localStorage w) = false ->
  run AuthContext.fetchUser w =
  (mkWorld (localStorage w)
     {| AuthContext.user := AuthContext.user (state w);
        AuthContext.loading := false |}
     (history w) (network w) (console w) (timers w),
   Finished (Returned tt)).
Proof.
  unfold AuthContext.fetchUser, has_session. async_unfold.
  intros ->. reflexivity.
Qed.

Lemma fetchUser_start (w : World AuthContext.AuthState) :
  has_session (localStorage w) = true ->
  let refresh := Http (AuthContext.me_request
                         (localStorage w !! "access_token")) in
  fst (run AuthContext.fetchUser w) = send refresh w /\
  pending (snd (run AuthContext.fetchUser w)) = Some refresh.
Proof.
  unfold AuthContext.fetchUser, has_session. async_unfold.
  intros ->. cbn. auto.
Qed.

(** Where a suspended [fetchUser] goes on, in whatever world [w'] the
    response finds. *)
Lemma fetchUser_resume (w w' : World AuthContext.AuthState) (o : Settled) :
  has_session (localStorage w) = true ->
  resume (snd (run AuthContext.fetchUser w)) o w' =
  (match o with
   | Fulfilled resp =>
       mkWorld (localStorage w')
         {| AuthContext.user := data resp; AuthContext.loading := false |}
         (history w') (network w') (console w') (timers w')
   | Rejected e =>
       if status_is e 401 then
         mkWorld (cleared (localStorage w'))
           {| AuthContext.user := JNull; AuthContext.loading := false |}
           (history w') (network w') (console w') (timers w')
       else
         mkWorld (localStorage w')
           {| AuthContext.user := AuthContext.user (state w');
              AuthContext.loading := false |}
           (history w') (network w') (console w') (timers w')
   end, Finished (Returned tt)).
Proof.
  unfold AuthContext.fetchUser, has_session. async_unfold.
  intros ->. cbn. destruct o as [resp|e]; cbn; [reflexivity|].
  destruct (status_is e 401); reflexivity.
Qed.

(** C8 on the code: a refresh is in flight when the user logs out; the
    logout completes and leaves the store and the cache empty; then the
    identity response arrives. The suspended [fetchUser] writes it into
    the cache: the store is still empty, the cache holds the user and
    [isAuthenticated] is true. *)
Theorem stale_refresh_repopulates_cache :
  let w0 := boot (tokens "A1" "R1") AuthContext.initial in
  let refreshing := run AuthContext.fetchUser w0 in
  let leaving := run AuthContext.logout (fst refreshing) in
  let left := resume (snd leaving)
                (Fulfilled {| status := 200; data := JNull |})
                (fst leaving) in
  let late := resume (snd refreshing)
                (Fulfilled {| status := 200; data := alice |})
                (fst left) in
  (store_empty (localStorage (fst left)) /\
   AuthContext.user (state (fst left)) = JNull) /\
  (store_empty (localStorage (fst late)) /\
   AuthContext.user (state (fst late)) = alice /\
   AuthContext.isAuthenticated (AuthContext.value (state (fst late))) = true).
Proof. cbv zeta. unfold store_empty. evaluate. Qed.

(** The same for every stored session, every settlement of the revoke
    call and every identity response. *)
Lemma stale_refresh_writes_cache
    (w0 : World AuthContext.AuthState) (revoked : Settled) (resp : Response) :
  has_session (localStorage w0) = true ->
  let refreshing := run AuthContext.fetchUser w0 in
  let leaving := run AuthContext.logout (fst refreshing) in
  let left := resume (snd leaving) revoked (fst leaving) in
  let late := resume (snd refreshing) (Fulfilled resp) (fst left) in
  store_empty (localStorage (fst late)) /\
  AuthContext.user (state (fst late)) = data resp.
Proof.
  intros Hs refreshing leaving left late.
  subst late. rewrite (fetchUser_resume w0 _ _ Hs). cbn.
  assert (Hs1 : has_session (localStorage (fst refreshing)) = true).
  { subst refreshing. rewrite (proj1 (fetchUser_start w0 Hs)). exact Hs. }
  destruct (logout_resume (fst refreshing) (fst leaving) revoked Hs1)
    as (_ & Hst & _).
  fold leaving in Hst. fold left in Hst. rewrite Hst.
  split; [apply store_empty_cleared|reflexivity].
Qed.

Lemma Navbar_fetchUserInfo_never_redirects
    (net : Awaited -> Settled) (w : World Navbar.State) :
  let w' := fst (exec net Navbar.fetchUserInfo w) in
  localStorage w' = localStorage w /\ history w' = history w.
Proof.
  unfold Navbar.fetchUserInfo. async_unfold.
  destruct (truthy_item (localStorage w !! "access_token")); cbn; auto.
  destruct (net _); cbn; auto.
Qed.

(** C2 on the code. The navigation bar's [fetchUserInfo] never touches
    the storage and never navigates, whatever the identity call answers;
    mounted on the password-change page with a session whose token the
    service rejects with 401, it leaves both tokens stored and only logs
    the error. The password-change request answered with 401 likewise
    leaves the session stored and shows a failure message. *)
Theorem Navbar_fetchUserInfo_keeps_session :
  (forall (net : Awaited -> Settled) (w : World Navbar.State),
     let w' := fst (exec net Navbar.fetchUserInfo w) in
     localStorage w' = localStorage w /\ history w' = history w) /\
  (let w' := fst (exec (net_const (Rejected err401))
                    (Navbar.mount JUndefined)
                    (boot (tokens "A1" "R1") (Navbar.initial JUndefined))) in
   network w' = [AuthContext.me_request (Some "A1")] /\
   localStorage w' = tokens "A1" "R1" /\
   history w' = [] /\
   console w' = ["Failed to fetch user info:"]) /\
  (let form := {| ChangePasswordPage.oldPassword := "secret1";
                  ChangePasswordPage.newPassword := "secret2";
                  ChangePasswordPage.confirmPassword := "secret2" |} in
   let w' := fst (exec
                    (net_const (Fulfilled {| status := 401; data := JNull |}))
                    (ChangePasswordPage.handleSubmit form)
                    (boot (tokens "A1" "R1") ChangePasswordPage.initial)) in
   network w' = [ChangePasswordPage.password_request (Some "A1") form] /\
   localStorage w' = tokens "A1" "R1" /\
   history w' = [] /\
   ChangePasswordPage.message (state w') = "パスワードの更新に失敗しました").
Proof.
  split; [|split].
  - exact Navbar_fetchUserInfo_never_redirects.
  - evaluate.
  - evaluate.
Qed.

(** ** Start-up *)

(** Run to completion, [fetchUser] ends in the world [fetchUser_resume]
    describes. *)
Lemma fetchUser_exec net (w : World AuthContext.AuthState) :
  has_session (localStorage w) = true ->
  let refresh := Http (AuthContext.me_request
                         (localStorage w !! "access_token")) in
  exec net AuthContext.fetchUser w =
  (fst (resume (snd (run AuthContext.fetchUser w)) (net refresh)
          (send refresh w)), Returned tt).
Proof.
  intros Hs refresh. rewrite (fetchUser_resume w _ _ Hs).
  unfold AuthContext.fetchUser. async_unfold.
  unfold has_session in Hs. rewrite Hs. cbn. fold refresh.
  destruct (net refresh) as [resp|e]; cbn; [reflexivity|].
  destruct (status_is e 401); reflexivity.
Qed.

(** C3, as the code has it. Without a stored access token the start-up
    ends at once: nothing is sent, [loading] is false and
    [isAuthenticated] is false. With one, the identity request is sent
    and, while it is pending, [loading] is true and [isAuthenticated] is
    false, the storage untouched. When it settles [loading] becomes
    false; the storage is cleared exactly when the request was rejected
    with status 401; [isAuthenticated] becomes true exactly when the
    request was fulfilled with a user record, and stays false after any
    failure, 401 or not. *)
Theorem bootstrap_outcomes (storage : gmap string string) :
  let w0 := boot storage AuthContext.initial in
  let r := run AuthContext.bootstrap w0 in
  let refresh := Http (AuthContext.me_request (storage !! "access_token")) in
  (has_session storage = false ->
     r = (boot storage {| AuthContext.user := JNull;
                          AuthContext.loading := false |},
          Finished (Returned tt)) /\
     AuthContext.isAuthenticated (AuthContext.value (state (fst r))) = false) /\
  (has_session storage = true ->
     fst r = send refresh w0 /\
     pending (snd r) = Some refresh /\
     AuthContext.value (state (fst r)) =
       {| AuthContext.value_user := JNull;
          AuthContext.value_loading := true;
          AuthContext.isAuthenticated := false |} /\
     forall o : Settled,
       let r' := resume (snd r) o (fst r) in
       snd r' = Finished (Returned tt) /\
       AuthContext.loading (state (fst r')) = false /\
       localStorage (fst r') =
         match o with
         | Fulfilled _ => storage
         | Rejected e => if status_is e 401 then cleared storage else storage
         end /\
       AuthContext.isAuthenticated (AuthContext.value (state (fst r'))) =
         match o with
         | Fulfilled resp => truthy (data resp)
         | Rejected _ => false
         end).
Proof.
  intros w0 r refresh. unfold AuthContext.bootstrap in r.
  split; intros Hs.
  - subst r. rewrite (fetchUser_no_session w0 Hs). auto.
  - destruct (fetchUser_start w0 Hs) as [Hw Hp].
    split; [exact Hw|]. split; [exact Hp|].
    split; [subst r; rewrite Hw; reflexivity|].
    intros o r'. subst r' r. rewrite (fetchUser_resume w0 _ o Hs), Hw.
    destruct o as [resp|e]; cbn; [auto|].
    destruct (status_is e 401); cbn; auto.
Qed.

Lemma bootstrap_outcomes_witness :
  let w0 := boot (tokens "A1" "R1") AuthContext.initial in
  let r := run AuthContext.bootstrap w0 in
  AuthContext.isAuthenticated (AuthContext.value (state (fst r))) = false /\
  (let r' := resume (snd r) (Rejected err500) (fst r) in
   localStorage (fst r') = tokens "A1" "R1" /\
   AuthContext.isAuthenticated (AuthContext.value (state (fst r'))) = false) /\
  (let r' := resume (snd r) (Rejected err401) (fst r) in
   localStorage (fst r') = cleared (tokens "A1" "R1")).
Proof.
  intros w0 r.
  destruct (proj2 (bootstrap_outcomes (tokens "A1" "R1")) eq_refl)
    as (_ & _ & Hv & Hdone).
  split; [exact (f_equal AuthContext.isAuthenticated Hv)|].
  split.
  - destruct (Hdone (Rejected err500)) as (_ & _ & Hst & Ha).
    split; [exact Hst|exact Ha].
  - destruct (Hdone (Rejected err401)) as (_ & _ & Hst & _). exact Hst.
Defined.

(** C3, as stated, fails twice: with a session stored the state exposed
    while the identity request is pending is not authenticated, and a
    failure other than 401 does not leave it authenticated. *)
Lemma bootstrap_not_optimistic :
  ~ (forall storage : gmap string string,
       has_session storage = true ->
       AuthContext.isAuthenticated
         (AuthContext.value
            (state (fst (run AuthContext.bootstrap
                           (boot storage AuthContext.initial))))) = true) /\
  ~ (forall (storage : gmap string string) (e : JsError),
       has_session storage = true ->
       status_is e 401 = false ->
       AuthContext.isAuthenticated
         (AuthContext.value
            (state (fst (exec (net_const (Rejected e)) AuthContext.bootstrap
                           (boot storage AuthContext.initial))))) = true).
Proof.
  split; intros H.
  - specialize (H (tokens "A1" "R1") eq_refl). vm_compute in H. discriminate.
  - specialize (H (tokens "A1" "R1") err500 eq_refl eq_refl).
    vm_compute in H. discriminate.
Qed.

(** ** The classification handed to consumers *)

(** C1, as the code has it. [isAuthenticated] is computed from the
    cached user alone: the context value is a function of the React
    state, the storage is not read. After the start-up it is true exactly
    when an access token was stored and the identity request was
    fulfilled with a user record. *)
Theorem isAuthenticated_is_cache_presence :
  (forall s : AuthContext.AuthState,
     AuthContext.isAuthenticated (AuthContext.value s) =
     truthy (AuthContext.user s)) /\
  (forall (net : Awaited -> Settled) (storage : gmap string string),
     let w := fst (exec net AuthContext.bootstrap
                     (boot storage AuthContext.initial)) in
     AuthContext.isAuthenticated (AuthContext.value (state w)) =
     has_session storage &&
     match net (Http (AuthContext.me_request (storage !! "access_token")))
     with
     | Fulfilled resp => truthy (data resp)
     | Rejected _ => false
     end).
Proof.
  split; [reflexivity|].
  intros net storage w. subst w. unfold AuthContext.bootstrap.
  destruct (has_session storage) eqn:Hs.
  - rewrite (fetchUser_exec net (boot storage AuthContext.initial) Hs).
    rewrite (fetchUser_resume (boot storage AuthContext.initial) _ _ Hs).
    cbn. destruct (net _) as [resp|e]; cbn; [reflexivity|].
    destruct (status_is e 401); reflexivity.
  - unfold AuthContext.fetchUser. async_unfold.
    unfold has_session in Hs. rewrite Hs. reflexivity.
Qed.

(** C1, as stated, fails: after a start-up whose identity request failed
    with status 500 the session is still stored and the classification
    is unauthenticated; so the classification is not the presence of a
    session. *)
Lemma isAuthenticated_is_not_session_presence :
  ~ (forall (net : Awaited -> Settled) (storage : gmap string string),
       let w := fst (exec net AuthContext.bootstrap
                       (boot storage AuthContext.initial)) in
       AuthContext.isAuthenticated (AuthContext.value (state w)) =
       has_session (localStorage w)).
Proof.
  intros H.
  specialize (H (net_const (Rejected err500)) (tokens "A1" "R1")).
  vm_compute in H. discriminate.
Qed.

(** ** Logging in *)

Lemma get_prop_field {S} (resp : Response) (k : string) :
  data resp <> JNull -> data resp <> JUndefined ->
  @get_prop S (data resp) k = Ret (field_of resp k).
Proof. unfold field_of. destruct (data resp); cbn; congruence. Qed.

Lemma accepted_data (resp : Response) :
  truthy (field_of resp "access_token") = true ->
  data resp <> JNull /\ data resp <> JUndefined.
Proof. unfold field_of. destruct (data resp); cbn; split; congruence. Qed.

Lemma saved_access_token (resp : Response) (storage : gmap string string) :
  saved resp storage !! "access_token" =
  Some (js_string (field_of resp "access_token")).
Proof.
  unfold saved. rewrite lookup_insert_ne by done. apply lookup_insert_eq.
Qed.

Lemma login_start (username password : string)
    (w : World AuthContext.AuthState) :
  let exchange := Http (AuthContext.login_request username password) in
  fst (run (AuthContext.login username password) w) = send exchange w /\
  pending (snd (run (AuthContext.login username password) w)) =
    Some exchange.
Proof. split; reflexivity. Qed.

(** A login whose exchange succeeded stores the pair and is suspended on
    the identity request. *)
Lemma login_resume_accepted (username password : string)
    (w w' : World AuthContext.AuthState) (resp : Response) :
  login_accepted (Fulfilled resp) = true ->
  let refresh := Http (AuthContext.me_request
                   (Some (js_string (field_of resp "access_token")))) in
  let r := resume (snd (run (AuthContext.login username password) w))
             (Fulfilled resp) w' in
  fst r = send refresh
            (mkWorld (saved resp (localStorage w')) (state w') (history w')
               (network w') (console w') (timers w')) /\
  pending (snd r) = Some refresh /\
  forall (o : Settled) (w'' : World AuthContext.AuthState),
    resume (snd r) o w'' =
    (match o with
     | Fulfilled r' =>
         mkWorld (localStorage w'')
           {| AuthContext.user := data r'; AuthContext.loading := false |}
           (history w'') (network w'') (console w'') (timers w'')
     | Rejected e =>
         if status_is e 401 then
           mkWorld (cleared (localStorage w''))
             {| AuthContext.user := JNull; AuthContext.loading := false |}
             (history w'') (network w'') (console w'') (timers w'')
         else
           mkWorld (localStorage w'')
             {| AuthContext.user := AuthContext.user (state w'');
                AuthContext.loading := false |}
             (history w'') (network w'') (console w'') (timers w'')
     end, Finished (Returned true)).
Proof.
  intros Hacc. cbn in Hacc.
  destruct (accepted_data resp Hacc) as [Hn Hu].
  unfold AuthContext.login, AuthContext.fetchUser. async_unfold.
  rewrite !get_prop_field by assumption. cbn. rewrite Hacc. cbn.
  fold (saved resp (localStorage w')). rewrite saved_access_token.
  rewrite (truthy_js_string _ Hacc). cbn.
  split; [reflexivity|]. split; [reflexivity|].
  intros o w''. destruct o as [r'|e]; cbn; [reflexivity|].
  destruct (status_is e 401); reflexivity.
Qed.

(** C4, as the code has it. When the credential exchange succeeds, the
    pair of the response is stored and the identity request is sent with
    the new access token. [login] returns [true] however that request
    settles. The stored pair is still there afterwards unless the request
    was rejected with status 401: then both tokens are removed. *)
Theorem login_refresh_outcomes (username password : string)
    (w : World AuthContext.AuthState) (resp : Response) (o : Settled) :
  login_accepted (Fulfilled resp) = true ->
  let r1 := run (AuthContext.login username password) w in
  let r2 := resume (snd r1) (Fulfilled resp) (fst r1) in
  let r3 := resume (snd r2) o (fst r2) in
  pending (snd r1) = Some (Http (AuthContext.login_request username password)) /\
  localStorage (fst r2) = saved resp (localStorage w) /\
  pending (snd r2) =
    Some (Http (AuthContext.me_request
                  (Some (js_string (field_of resp "access_token"))))) /\
  snd r3 = Finished (Returned true) /\
  localStorage (fst r3) =
    match o with
    | Fulfilled _ => saved resp (localStorage w)
    | Rejected e =>
        if status_is e 401 then cleared (saved resp (localStorage w))
        else saved resp (localStorage w)
    end.
Proof.
  intros Hacc r1 r2 r3.
  destruct (login_resume_accepted username password w (fst r1) resp Hacc)
    as (Hw & Hp & Hres).
  fold r1 r2 in Hw, Hp, Hres.
  split; [reflexivity|]. split; [rewrite Hw; reflexivity|].
  split; [exact Hp|]. subst r3. rewrite Hres, Hw.
  destruct o as [r'|e]; cbn; [auto|].
  destruct (status_is e 401); cbn; auto.
Qed.

Lemma login_refresh_outcomes_witness :
  let resp := {| status := 200;
                 data := JObj {[ "access_token" := JStr "A1";
                                 "refresh_token" := JStr "R1" ]} |} in
  let r1 := run (AuthContext.login "alice" "pw")
              (boot ∅ AuthContext.initial) in
  let r2 := resume (snd r1) (Fulfilled resp) (fst r1) in
  localStorage (fst r2) = tokens "A1" "R1" /\
  localStorage (fst (resume (snd r2) (Rejected err500) (fst r2))) =
    tokens "A1" "R1".
Proof.
  intros resp r1 r2.
  split.
  - exact (proj1 (proj2 (login_refresh_outcomes "alice" "pw"
             (boot ∅ AuthContext.initial) resp (Rejected err500) eq_refl))).
  - exact (proj2 (proj2 (proj2 (proj2 (login_refresh_outcomes "alice" "pw"
             (boot ∅ AuthContext.initial) resp (Rejected err500) eq_refl))))).
Defined.

(** C4, as stated, fails: when the identity request that follows a
    successful login is rejected with status 401, the tokens just stored
    are removed. *)
Lemma login_undone_by_unauthorized_refresh :
  ~ (forall (username password : string) (w : World AuthContext.AuthState)
            (resp : Response) (o : Settled),
       login_accepted (Fulfilled resp) = true ->
       let r1 := run (AuthContext.login username password) w in
       let r2 := resume (snd r1) (Fulfilled resp) (fst r1) in
       let r3 := resume (snd r2) o (fst r2) in
       localStorage (fst r3) !! "access_token" =
         Some (js_string (field_of resp "access_token")) /\
       localStorage (fst r3) !! "refresh_token" =
         Some (js_string (field_of resp "refresh_token"))).
Proof.
  intros H.
  specialize (H "alice" "pw" (boot ∅ AuthContext.initial)
                {| status := 200;
                   data := JObj {[ "access_token" := JStr "A1";
                                   "refresh_token" := JStr "R1" ]} |}
                (Rejected err401) eq_refl).
  destruct H as [H _]. vm_compute in H. discriminate.
Qed.

(** A login whose exchange did not succeed ends without having touched
    anything but the network log. *)
Lemma login_exec_refused net (username password : string)
    (w : World AuthContext.AuthState) :
  login_accepted (net (Http (AuthContext.login_request username password)))
    = false ->
  let r := exec net (AuthContext.login username password) w in
  fst r = send (Http (AuthContext.login_request username password)) w /\
  snd r <> Returned true.
Proof.
  intros Hacc. unfold AuthContext.login. async_unfold.
  destruct (net _) as [resp|e]; cbn; [|split; [reflexivity|discriminate]].
  cbn in Hacc. unfold field_of in Hacc.
  destruct (data resp) as [| |b|s|fields]; cbn;
    try (split; [reflexivity|discriminate]).
  cbn in Hacc. rewrite Hacc. cbn. split; [reflexivity|discriminate].
Qed.

Lemma handleSubmit_exec_refused net (username password : string)
    (w : World Login.State) :
  login_accepted (net (Http (AuthContext.login_request username password)))
    = false ->
  let r := exec net (Login.handleSubmit username password) w in
  localStorage (fst r) = localStorage w /\ history (fst r) = history w.
Proof.
  intros Hacc. unfold Login.handleSubmit. async_unfold.
  destruct (net _) as [resp|e]; cbn; [|auto].
  cbn in Hacc. unfold field_of in Hacc.
  destruct (data resp) as [| |b|s|fields]; cbn; auto.
  cbn in Hacc. rewrite Hacc. cbn. auto.
Qed.

(** ** Changing the password *)

Lemma short_of_empty (s : string) :
  String.eqb s "" = true -> Nat.ltb (String.length s) 6 = true.
Proof. intros ->%String.eqb_eq. reflexivity. Qed.

Lemma newErrors_size (f : ChangePasswordPage.FormData) :
  Nat.eqb (size (ChangePasswordPage.newErrors f)) 0 = form_ok f.
Proof.
  destruct f as [old new confirm].
  unfold ChangePasswordPage.newErrors, form_ok, truthy.
  cbn [ChangePasswordPage.oldPassword ChangePasswordPage.newPassword
       ChangePasswordPage.confirmPassword].
  destruct (String.eqb old "") eqn:H1, (String.eqb new "") eqn:H2,
    (Nat.ltb (String.length new) 6) eqn:H3,
    (String.eqb confirm "") eqn:H4, (String.eqb new confirm) eqn:H5,
    (String.eqb old new) eqn:H6;
    cbn [negb andb]; try reflexivity;
    try (apply short_of_empty in H2; congruence);
    apply String.eqb_eq in H4, H5; subst;
    rewrite String.eqb_refl in H2; discriminate.
Qed.

Lemma form_ok_false (f : ChangePasswordPage.FormData) :
  ChangePasswordPage.oldPassword f = "" \/
  String.length (ChangePasswordPage.newPassword f) < 6 \/
  ChangePasswordPage.confirmPassword f <> ChangePasswordPage.newPassword f \/
  ChangePasswordPage.newPassword f = ChangePasswordPage.oldPassword f ->
  form_ok f = false.
Proof.
  unfold form_ok. intros [H|[H|[H|H]]].
  - rewrite H. reflexivity.
  - apply Nat.ltb_lt in H. rewrite H. now rewrite andb_false_r.
  - assert (String.eqb (ChangePasswordPage.newPassword f)
              (ChangePasswordPage.confirmPassword f) = false) as ->
      by (apply String.eqb_neq; congruence).
    now rewrite andb_false_r.
  - rewrite H, String.eqb_refl. now rewrite andb_false_r.
Qed.

Lemma form_ok_true (f : ChangePasswordPage.FormData) :
  form_ok f = true ->
  ChangePasswordPage.oldPassword f <> "" /\
  6 <= String.length (ChangePasswordPage.newPassword f) /\
  ChangePasswordPage.confirmPassword f = ChangePasswordPage.newPassword f /\
  ChangePasswordPage.newPassword f <> ChangePasswordPage.oldPassword f.
Proof.
  unfold form_ok. rewrite !andb_true_iff, !negb_true_iff.
  intros [[[H1 H2] H3] H4].
  apply String.eqb_neq in H1. apply Nat.ltb_ge in H2.
  apply String.eqb_eq in H3. apply String.eqb_neq in H4.
  repeat split; congruence.
Qed.

(** A refused form ends [handleSubmit] right after [setErrors]. *)
Lemma handleSubmit_refused net (f : ChangePasswordPage.FormData)
    (w : World ChangePasswordPage.State) :
  form_ok f = false ->
  exec net (ChangePasswordPage.handleSubmit f) w =
  (mkWorld (localStorage w)
     {| ChangePasswordPage.formData := ChangePasswordPage.formData (state w);
        ChangePasswordPage.errors := ChangePasswordPage.newErrors f;
        ChangePasswordPage.isLoading := ChangePasswordPage.isLoading (state w);
        ChangePasswordPage.message := ChangePasswordPage.message (state w) |}
     (history w) (network w) (console w) (timers w),
   Returned tt).
Proof.
  intros Hok. unfold ChangePasswordPage.handleSubmit,
    ChangePasswordPage.validateForm. async_unfold.
  rewrite newErrors_size, Hok. reflexivity.
Qed.

(** An accepted form without a session: a redirect and no request. *)
Lemma handleSubmit_no_session net (f : ChangePasswordPage.FormData)
    (w : World ChangePasswordPage.State) :
  form_ok f = true ->
  has_session (localStorage w) = false ->
  let r := exec net (ChangePasswordPage.handleSubmit f) w in
  network (fst r) = network w /\
  history (fst r) = "/login" :: history w /\
  localStorage (fst r) = localStorage w /\
  snd r = Returned tt.
Proof.
  intros Hok Hs. unfold ChangePasswordPage.handleSubmit,
    ChangePasswordPage.validateForm. async_unfold.
  rewrite newErrors_size, Hok. cbn.
  unfold has_session in Hs. rewrite Hs. cbn. auto.
Qed.

(** The requests [handleSubmit] sends: at most the one [PUT]. *)
Lemma handleSubmit_network net (f : ChangePasswordPage.FormData)
    (w : World ChangePasswordPage.State) :
  let r := exec net (ChangePasswordPage.handleSubmit f) w in
  network (fst r) =
    if form_ok f && has_session (localStorage w) then
      ChangePasswordPage.password_request
        (localStorage w !! "access_token") f :: network w
    else network w.
Proof.
  cbv zeta. destruct (form_ok f) eqn:Hok; cbn [andb].
  2: { now rewrite (handleSubmit_refused net f w Hok). }
  destruct (has_session (localStorage w)) eqn:Hs.
  2: { apply (handleSubmit_no_session net f w Hok Hs). }
  unfold ChangePasswordPage.handleSubmit,
    ChangePasswordPage.validateForm. async_unfold.
  rewrite newErrors_size, Hok. cbn.
  unfold has_session in Hs. rewrite Hs. cbn.
  destruct (net (Http _)) as [resp|e]; cbn; [|reflexivity].
  destruct (ok resp); cbn.
  - destruct (net (ReadJson resp)); cbn; reflexivity.
  - destruct (net (ReadJson resp)) as [errorData|e]; cbn; [|reflexivity].
    destruct (Nat.eqb (status resp) 400); cbn; [|reflexivity].
    destruct (data errorData); cbn; reflexivity.
Qed.

(** C10. A form whose old password is empty, whose new password has
    fewer than 6 characters, whose confirmation differs from the new
    password, or whose new password equals the old one, is refused
    before any effect outside the component: [handleSubmit] sends no
    request, leaves the storage as it was, pushes no route and sets no
    timer. A request leaves only when all four checks pass, and it is
    the one [PUT] to the password endpoint. *)
Theorem invalid_form_has_no_effect (net : Awaited -> Settled)
    (f : ChangePasswordPage.FormData) (w : World ChangePasswordPage.State) :
  let r := exec net (ChangePasswordPage.handleSubmit f) w in
  (ChangePasswordPage.oldPassword f = "" \/
   String.length (ChangePasswordPage.newPassword f) < 6 \/
   ChangePasswordPage.confirmPassword f <> ChangePasswordPage.newPassword f \/
   ChangePasswordPage.newPassword f = ChangePasswordPage.oldPassword f ->
     network (fst r) = network w /\
     localStorage (fst r) = localStorage w /\
     history (fst r) = history w /\
     timers (fst r) = timers w /\
     snd r = Returned tt) /\
  (network (fst r) <> network w ->
     (ChangePasswordPage.oldPassword f <> "" /\
      6 <= String.length (ChangePasswordPage.newPassword f) /\
      ChangePasswordPage.confirmPassword f =
        ChangePasswordPage.newPassword f /\
      ChangePasswordPage.newPassword f <> ChangePasswordPage.oldPassword f) /\
     network (fst r) =
       ChangePasswordPage.password_request
         (localStorage w !! "access_token") f :: network w).
Proof.
  intros r. split.
  - intros Hbad%form_ok_false. subst r.
    rewrite (handleSubmit_refused net f w Hbad). cbn. auto.
  - intros Hsent. pose proof (handleSubmit_network net f w) as Hnet.
    fold r in Hnet. cbn in Hnet.
    destruct (form_ok f) eqn:Hok; cbn in Hnet; [|contradiction].
    destruct (has_session (localStorage w)); [|contradiction].
    split; [apply form_ok_true, Hok|exact Hnet].
Qed.

Lemma invalid_form_has_no_effect_witness :
  let f := {| ChangePasswordPage.oldPassword := "secret1";
              ChangePasswordPage.newPassword := "abc";
              ChangePasswordPage.confirmPassword := "abc" |} in
  let w := boot (tokens "A1" "R1") ChangePasswordPage.initial in
  let r := exec (net_const (Rejected err_network))
             (ChangePasswordPage.handleSubmit f) w in
  network (fst r) = [] /\ localStorage (fst r) = tokens "A1" "R1" /\
  history (fst r) = [].
Proof.
  intros f w r.
  destruct (proj1 (invalid_form_has_no_effect
                     (net_const (Rejected err_network)) f w))
    as (Hn & Hs & Hh & _).
  - right. left. cbn. lia.
  - auto.
Defined.

(** ** The views and the session *)

Lemma fetchUserInfo_resume (w w' : World HomePage.State) (o : Settled) :
  has_session (localStorage w) = true ->
  resume (snd (run HomePage.fetchUserInfo w)) o w' =
  (match o with
   | Fulfilled resp =>
       mkWorld (localStorage w')
         {| HomePage.user := data resp; HomePage.loading := false;
            HomePage.error := HomePage.error (state w');
            HomePage.selectedFilter := HomePage.selectedFilter (state w') |}
         (history w') (network w') (console w') (timers w')
   | Rejected e =>
       if isAxiosError e && status_is e 401 then
         mkWorld (cleared (localStorage w'))
           {| HomePage.user := HomePage.user (state w');
              HomePage.loading := false;
              HomePage.error := HomePage.error (state w');
              HomePage.selectedFilter := HomePage.selectedFilter (state w') |}
           ("/login" :: history w') (network w') (console w') (timers w')
       else
         mkWorld (localStorage w')
           {| HomePage.user := HomePage.user (state w');
              HomePage.loading := false;
              HomePage.error := "ユーザー情報の取得に失敗しました。";
              HomePage.selectedFilter := HomePage.selectedFilter (state w') |}
           (history w') (network w') (console w') (timers w')
   end, Finished (Returned tt)).
Proof.
  unfold HomePage.fetchUserInfo, has_session. async_unfold.
  intros ->. cbn. destruct o as [resp|e]; cbn; [reflexivity|].
  destruct (isAxiosError e && status_is e 401); reflexivity.
Qed.

(** The routes [handleSubmit] of the password form pushes: the login
    route, exactly when the form is accepted and no access token is
    stored. *)
Lemma handleSubmit_history net (f : ChangePasswordPage.FormData)
    (w : World ChangePasswordPage.State) :
  let r := exec net (ChangePasswordPage.handleSubmit f) w in
  history (fst r) =
    if form_ok f && negb (has_session (localStorage w)) then
      "/login" :: history w
    else history w.
Proof.
  cbv zeta. destruct (form_ok f) eqn:Hok; cbn [andb].
  2: { now rewrite (handleSubmit_refused net f w Hok). }
  destruct (has_session (localStorage w)) eqn:Hs; cbn [negb].
  2: { apply (handleSubmit_no_session net f w Hok Hs). }
  unfold ChangePasswordPage.handleSubmit,
    ChangePasswordPage.validateForm. async_unfold.
  rewrite newErrors_size, Hok. cbn.
  unfold has_session in Hs. rewrite Hs. cbn.
  destruct (net (Http _)) as [resp|e]; cbn; [|reflexivity].
  destruct (ok resp); cbn.
  - destruct (net (ReadJson resp)); cbn; reflexivity.
  - destruct (net (ReadJson resp)) as [errorData|e]; cbn; [|reflexivity].
    destruct (Nat.eqb (status resp) 400); cbn; [|reflexivity].
    destruct (data errorData); cbn; reflexivity.
Qed.

(** C5, as the code has it. The dashboard checks the session in the
    effect of its first render. Without an access token it pushes the
    login route and sends nothing; with one it shows the loading view
    while the identity request is pending, shows the dashboard with the
    fetched user once the request is fulfilled, removes both tokens and
    pushes the login route when the request is rejected with 401, and
    shows the error view after any other failure. The push does not
    replace the rendering: after it (no token, or 401) the loading flag
    is lowered and the view of the component is the dashboard without a
    user. The password-change view has no such check: it renders its
    form whatever the storage holds, mounting it pushes no route, and
    its [handleSubmit] pushes the login route exactly when the form is
    accepted and no access token is stored, sending nothing then. *)
Theorem views_and_session (storage : gmap string string) :
  let w0 := boot storage HomePage.initial in
  let r := run HomePage.fetchUserInfo w0 in
  let refresh := Http (AuthContext.me_request (storage !! "access_token")) in
  (has_session storage = false ->
     snd r = Finished (Returned tt) /\
     history (fst r) = ["/login"] /\
     network (fst r) = [] /\
     localStorage (fst r) = storage /\
     HomePage.render (state (fst r)) = HomePage.Dashboard JNull) /\
  (has_session storage = true ->
     fst r = send refresh w0 /\
     pending (snd r) = Some refresh /\
     HomePage.render (state (fst r)) = HomePage.LoadingView /\
     forall o : Settled,
       let r' := resume (snd r) o (fst r) in
       snd r' = Finished (Returned tt) /\
       match o with
       | Fulfilled resp =>
           HomePage.render (state (fst r')) = HomePage.Dashboard (data resp) /\
           history (fst r') = [] /\
           localStorage (fst r') = storage
       | Rejected e =>
           if isAxiosError e && status_is e 401 then
             history (fst r') = ["/login"] /\
             localStorage (fst r') = cleared storage /\
             HomePage.render (state (fst r')) = HomePage.Dashboard JNull
           else
             HomePage.render (state (fst r')) =
               HomePage.ErrorView "ユーザー情報の取得に失敗しました。" /\
             history (fst r') = [] /\
             localStorage (fst r') = storage
       end) /\
  (forall s : ChangePasswordPage.State,
     ChangePasswordPage.render (state (boot storage s)) =
     ChangePasswordPage.Form (ChangePasswordPage.formData s)
       (ChangePasswordPage.errors s) (ChangePasswordPage.message s)
       (ChangePasswordPage.isLoading s)) /\
  (forall net : Awaited -> Settled,
     history (fst (exec net ChangePasswordPage.mount
                     (boot storage (Navbar.initial JUndefined)))) = []) /\
  (forall (net : Awaited -> Settled) (f : ChangePasswordPage.FormData)
          (s : ChangePasswordPage.State),
     let r' := exec net (ChangePasswordPage.handleSubmit f) (boot storage s) in
     history (fst r') =
       (if form_ok f && negb (has_session storage) then ["/login"] else []) /\
     (form_ok f = true -> has_session storage = false ->
      network (fst r') = [])).
Proof.
  intros w0 r refresh. split; [|split; [|split; [|split]]].
  - intros Hs. subst r. unfold HomePage.fetchUserInfo. async_unfold.
    unfold has_session in Hs. rewrite Hs. cbn. auto 6.
  - intros Hs.
    assert (Hw : fst r = send refresh w0 /\ pending (snd r) = Some refresh).
    { subst r refresh. unfold HomePage.fetchUserInfo. async_unfold.
      unfold has_session in Hs. rewrite Hs. cbn. auto. }
    destruct Hw as [Hw Hp].
    split; [exact Hw|]. split; [exact Hp|].
    split; [rewrite Hw; reflexivity|].
    intros o r'. subst r' r. rewrite (fetchUserInfo_resume w0 _ o Hs), Hw.
    destruct o as [resp|e]; cbn; [auto|].
    destruct (isAxiosError e && status_is e 401); cbn; auto.
  - intros s. reflexivity.
  - intros net. unfold ChangePasswordPage.mount, Navbar.mount. cbn.
    destruct (Navbar_fetchUserInfo_never_redirects net
                (boot storage (Navbar.initial JUndefined))) as [_ H].
    exact H.
  - intros net f s r'. split.
    + exact (handleSubmit_history net f (boot storage s)).
    + intros Hok Hs.
      destruct (handleSubmit_no_session net f (boot storage s) Hok Hs)
        as (Hn & _).
      exact Hn.
Qed.

Lemma views_and_session_witness :
  let r := run HomePage.fetchUserInfo (boot ∅ HomePage.initial) in
  snd r = Finished (Returned tt) /\
  history (fst r) = ["/login"] /\
  network (fst r) = [] /\
  localStorage (fst r) = ∅ /\
  HomePage.render (state (fst r)) = HomePage.Dashboard JNull.
Proof. exact (proj1 (views_and_session ∅) eq_refl). Defined.

(** C5, as stated, fails for both views. The password-change view,
    mounted on an empty storage, pushes no route. The dashboard,
    mounted on an empty storage, pushes the login route, but its view is
    then the dashboard itself: the redirect does not stand in for the
    rendering. *)
Lemma views_are_not_guarded :
  ~ (forall (storage : gmap string string) (net : Awaited -> Settled),
       has_session storage = false ->
       history (fst (exec net ChangePasswordPage.mount
                       (boot storage (Navbar.initial JUndefined)))) =
       ["/login"]) /\
  ~ (forall (storage : gmap string string) (currentUser : JsVal),
       has_session storage = false ->
       HomePage.render
         (state (fst (run HomePage.fetchUserInfo
                        (boot storage HomePage.initial)))) <>
       HomePage.Dashboard currentUser).
Proof.
  split; intros H.
  - specialize (H ∅ (net_const (Rejected err_network)) eq_refl).
    vm_compute in H. discriminate.
  - exact (H ∅ JNull eq_refl eq_refl).
Qed.

(** * Further properties of the handlers *)

(** ** The storage footprint *)

Section Footprint.

Context {S : Type} (sets removes : string -> Prop).

Lemma footprint_bind {A B} (m : Async S A) (f : A -> Async S B) :
  footprint sets removes m ->
  (forall a, footprint sets removes (f a)) ->
  footprint sets removes (bind m f).
Proof.
  intros Hm Hf. induction m as [a|e|k cont IH|a cont IH|p cont IH]; cbn in *.
  - apply Hf.
  - exact I.
  - intros v. apply IH, Hm.
  - destruct Hm as [Ha Hm]. split; [exact Ha|apply IH, Hm].
  - intros o. apply IH, Hm.
Qed.

Lemma footprint_try_catch {A} (m : Async S A) (h : JsError -> Async S A) :
  footprint sets removes m ->
  (forall e, footprint sets removes (h e)) ->
  footprint sets removes (try_catch m h).
Proof.
  intros Hm Hh. induction m as [a|e|k cont IH|a cont IH|p cont IH]; cbn in *.
  - exact I.
  - apply Hh.
  - intros v. apply IH, Hm.
  - destruct Hm as [Ha Hm]. split; [exact Ha|apply IH, Hm].
  - intros o. apply IH, Hm.
Qed.

Lemma footprint_try_finally {A} (m : Async S A) (f : Async S unit) :
  footprint sets removes m ->
  footprint sets removes f ->
  footprint sets removes (try_finally m f).
Proof.
  intros Hm Hf. induction m as [a|e|k cont IH|a cont IH|p cont IH]; cbn in *.
  - apply footprint_bind; [exact Hf|intros; exact I].
  - apply footprint_bind; [exact Hf|intros; exact I].
  - intros v. apply IH, Hm.
  - destruct Hm as [Ha Hm]. split; [exact Ha|apply IH, Hm].
  - intros o. apply IH, Hm.
Qed.

(** One action within the footprint leaves the other keys alone. *)
Lemma apply_action_frame (a : Action S) (w : World S) (k : string) :
  match a with
  | SetItem k' _ => sets k'
  | RemoveItem k' => removes k'
  | _ => True
  end ->
  ~ sets k -> ~ removes k ->
  localStorage (apply_action a w) !! k = localStorage w !! k.
Proof.
  intros Ha Hs Hr. destruct a as [k' v|k'|f|path|msg|path ms]; cbn; auto.
  - apply lookup_insert_ne. intros ->. contradiction.
  - apply lookup_delete_ne. intros ->. contradiction.
Qed.

Lemma send_storage (p : Awaited) (w : World S) :
  localStorage (send p w) = localStorage w.
Proof. destruct p; reflexivity. Qed.

Lemma exec_frame {A} net (m : Async S A) (w : World S) (k : string) :
  footprint sets removes m ->
  ~ sets k -> ~ removes k ->
  localStorage (fst (exec net m w)) !! k = localStorage w !! k.
Proof.
  intros Hm Hs Hr. revert w.
  induction m as [a|e|k' cont IH|a cont IH|p cont IH]; intros w; cbn in *.
  - reflexivity.
  - reflexivity.
  - apply IH, Hm.
  - destruct Hm as [Ha Hm]. rewrite (IH Hm).
    apply apply_action_frame; assumption.
  - rewrite (IH _ (Hm _)). now rewrite send_storage.
Qed.

Lemma run_frame {A} (m : Async S A) (w : World S) (k : string) :
  footprint sets removes m ->
  ~ sets k -> ~ removes k ->
  localStorage (fst (run m w)) !! k = localStorage w !! k.
Proof.
  intros Hm Hs Hr. revert w.
  induction m as [a|e|k' cont IH|a cont IH|p cont IH]; intros w; cbn in *.
  - reflexivity.
  - reflexivity.
  - apply IH, Hm.
  - destruct Hm as [Ha Hm]. rewrite (IH Hm).
    apply apply_action_frame; assumption.
  - now rewrite send_storage.
Qed.

(** What is left to run after a suspension stays within the footprint. *)
Lemma run_status {A} (m : Async S A) (w : World S) :
  footprint sets removes m ->
  status_footprint sets removes (snd (run m w)).
Proof.
  intros Hm. revert w.
  induction m as [a|e|k' cont IH|a cont IH|p cont IH]; intros w; cbn in *.
  - exact I.
  - exact I.
  - apply IH, Hm.
  - apply IH, Hm.
  - exact Hm.
Qed.

Lemma resume_frame {A} (s : Status S A) (o : Settled) (w : World S)
    (k : string) :
  status_footprint sets removes s ->
  ~ sets k -> ~ removes k ->
  localStorage (fst (resume s o w)) !! k = localStorage w !! k /\
  status_footprint sets removes (snd (resume s o w)).
Proof.
  intros Hst Hs Hr. destruct s as [c|p cont]; cbn in *.
  - auto.
  - split; [apply run_frame; auto|apply run_status; auto].
Qed.

End Footprint.

(** A handler that stores nothing can only shrink the storage. *)
Lemma exec_shrinks {S A} (removes : string -> Prop) net (m : Async S A)
    (w : World S) :
  footprint no_key removes m ->
  localStorage (fst (exec net m w)) ⊆ localStorage w.
Proof.
  revert w.
  induction m as [a|e|k' cont IH|a cont IH|p cont IH]; intros w Hm; cbn in *.
  - reflexivity.
  - reflexivity.
  - apply IH, Hm.
  - destruct Hm as [Ha Hm]. etransitivity; [apply IH, Hm|].
    destruct a as [k v|k|f|path|msg|path ms]; cbn; try reflexivity.
    + destruct Ha.
    + apply delete_subseteq.
  - etransitivity; [apply IH, Hm|]. now rewrite send_storage.
Qed.

Lemma run_shrinks {S A} (removes : string -> Prop) (m : Async S A)
    (w : World S) :
  footprint no_key removes m ->
  localStorage (fst (run m w)) ⊆ localStorage w.
Proof.
  revert w.
  induction m as [a|e|k' cont IH|a cont IH|p cont IH]; intros w Hm; cbn in *.
  - reflexivity.
  - reflexivity.
  - apply IH, Hm.
  - destruct Hm as [Ha Hm]. etransitivity; [apply IH, Hm|].
    destruct a as [k v|k|f|path|msg|path ms]; cbn; try reflexivity.
    + destruct Ha.
    + apply delete_subseteq.
  - now rewrite send_storage.
Qed.

Lemma resume_shrinks {S A} (removes : string -> Prop) (s : Status S A)
    (o : Settled) (w : World S) :
  status_footprint no_key removes s ->
  localStorage (fst (resume s o w)) ⊆ localStorage w.
Proof.
  intros Hs. destruct s as [c|p cont]; cbn in *; [reflexivity|].
  apply (run_shrinks removes), Hs.
Qed.

(** The handlers of the source and the setters they call. *)
Create HintDb handlers.

#[local] Hint Unfold
  AuthContext.fetchUser AuthContext.login AuthContext.logout
  AuthContext.bootstrap AuthContext.setUser AuthContext.setLoading
  Login.handleSubmit Login.setError Login.setLoading
  HomePage.fetchUserInfo HomePage.handleLogout HomePage.setUser
  HomePage.setLoading HomePage.setError
  Home.fetchUserInfo Home.handleLogout Home.setUser Home.setLoading
  Home.setError
  Navbar.fetchUserInfo Navbar.handleLogout Navbar.mount Navbar.setUser
  ChangePasswordPage.handleSubmit ChangePasswordPage.validateForm
  ChangePasswordPage.handleChange ChangePasswordPage.mount
  ChangePasswordPage.setFormData ChangePasswordPage.setErrors
  ChangePasswordPage.setIsLoading ChangePasswordPage.setMessage
  try_catch_finally : handlers.

(** Decide the footprint of a handler along its structure. *)
Ltac footprint_step :=
  match goal with
  | |- footprint _ _ (bind _ _) => apply footprint_bind; [|intros]
  | |- footprint _ _ (try_finally _ _) => apply footprint_try_finally
  | |- footprint _ _ (try_catch _ _) => apply footprint_try_catch; [|intros]
  | |- footprint _ _ (if ?b then _ else _) => destruct b
  | |- footprint _ _ (get_prop ?v _) => destruct v; cbn
  | |- footprint _ _ (perform _) => cbn; split; [|exact I]
  | |- footprint _ _ (getItem _) => cbn; intros; exact I
  | |- footprint _ _ (await _) => cbn; intros []; exact I
  | |- footprint _ _ (Ret _) => exact I
  | |- token_key _ => first [left; reflexivity | right; reflexivity]
  | |- True => exact I
  end.

Ltac footprint_tac := autounfold with handlers; repeat footprint_step.

Lemma fetchUser_footprint :
  footprint no_key token_key AuthContext.fetchUser.
Proof. footprint_tac. Qed.

Lemma logout_footprint :
  footprint no_key token_key AuthContext.logout.
Proof. footprint_tac. Qed.

Lemma login_footprint (username password : string) :
  footprint token_key token_key (AuthContext.login username password).
Proof. footprint_tac. Qed.

Lemma Login_handleSubmit_footprint (username password : string) :
  footprint token_key no_key (Login.handleSubmit username password).
Proof. footprint_tac. Qed.

Lemma HomePage_fetchUserInfo_footprint :
  footprint no_key token_key HomePage.fetchUserInfo.
Proof. footprint_tac. Qed.

Lemma HomePage_handleLogout_footprint :
  footprint no_key token_key HomePage.handleLogout.
Proof. footprint_tac. Qed.

Lemma Home_fetchUserInfo_footprint :
  footprint no_key token_key Home.fetchUserInfo.
Proof. footprint_tac. Qed.

Lemma Home_handleLogout_footprint :
  footprint no_key token_key Home.handleLogout.
Proof. footprint_tac. Qed.

Lemma Navbar_fetchUserInfo_footprint :
  footprint no_key no_key Navbar.fetchUserInfo.
Proof. footprint_tac. Qed.

Lemma Navbar_handleLogout_footprint :
  footprint no_key token_key Navbar.handleLogout.
Proof. footprint_tac. Qed.

Lemma ChangePasswordPage_handleSubmit_footprint
    (f : ChangePasswordPage.FormData) :
  footprint no_key no_key (ChangePasswordPage.handleSubmit f).
Proof. footprint_tac. Qed.

Lemma handleChange_footprint (shown : gmap string JsVal)
    (name : ChangePasswordPage.Field) (value : string) :
  footprint no_key no_key (ChangePasswordPage.handleChange shown name value).
Proof. footprint_tac. Qed.

Lemma exec_untouched {S A} net (m : Async S A) (w : World S) :
  footprint no_key no_key m ->
  localStorage (fst (exec net m w)) = localStorage w.
Proof.
  intros Hm. apply map_eq. intros k.
  apply (exec_frame no_key no_key); auto.
Qed.

Lemma not_token_key (k : string) :
  k <> "access_token" -> k <> "refresh_token" -> ~ token_key k.
Proof. intros Ha Hr [H|H]; contradiction. Qed.

(** X1. No handler of the frontend touches a key of the storage other
    than the two token keys: whatever the network answers, every other
    key holds after the handler what it held before. *)
Theorem handlers_touch_only_token_keys
    (net : Awaited -> Settled) (k : string) :
  k <> "access_token" -> k <> "refresh_token" ->
  (forall (username password : string) (w : World AuthContext.AuthState),
     localStorage (fst (exec net (AuthContext.login username password) w))
       !! k = localStorage w !! k) /\
  (forall w : World AuthContext.AuthState,
     localStorage (fst (exec net AuthContext.fetchUser w)) !! k =
       localStorage w !! k /\
     localStorage (fst (exec net AuthContext.logout w)) !! k =
       localStorage w !! k) /\
  (forall (username password : string) (w : World Login.State),
     localStorage (fst (exec net (Login.handleSubmit username password) w))
       !! k = localStorage w !! k) /\
  (forall w : World HomePage.State,
     localStorage (fst (exec net HomePage.fetchUserInfo w)) !! k =
       localStorage w !! k /\
     localStorage (fst (exec net HomePage.handleLogout w)) !! k =
       localStorage w !! k) /\
  (forall w : World Home.State,
     localStorage (fst (exec net Home.fetchUserInfo w)) !! k =
       localStorage w !! k /\
     localStorage (fst (exec net Home.handleLogout w)) !! k =
       localStorage w !! k) /\
  (forall w : World Navbar.State,
     localStorage (fst (exec net Navbar.handleLogout w)) !! k =
       localStorage w !! k).
Proof.
  intros Ha Hr. pose proof (not_token_key k Ha Hr) as Hk.
  assert (Hn : ~ no_key k) by (intros []).
  repeat split; intros.
  - apply (exec_frame token_key token_key); auto using login_footprint.
  - apply (exec_frame no_key token_key); auto using fetchUser_footprint.
  - apply (exec_frame no_key token_key); auto using logout_footprint.
  - apply (exec_frame token_key no_key);
      auto using Login_handleSubmit_footprint.
  - apply (exec_frame no_key token_key);
      auto using HomePage_fetchUserInfo_footprint.
  - apply (exec_frame no_key token_key);
      auto using HomePage_handleLogout_footprint.
  - apply (exec_frame no_key token_key);
      auto using Home_fetchUserInfo_footprint.
  - apply (exec_frame no_key token_key);
      auto using Home_handleLogout_footprint.
  - apply (exec_frame no_key token_key);
      auto using Navbar_handleLogout_footprint.
Qed.

Lemma handlers_touch_only_token_keys_witness :
  localStorage
    (fst (exec (net_const (Rejected err401)) AuthContext.fetchUser
            (boot (<["theme" := "dark"]> (tokens "A1" "R1"))
               AuthContext.initial))) !! "theme" = Some "dark".
Proof.
  destruct (handlers_touch_only_token_keys (net_const (Rejected err401))
              "theme") as (_ & H & _); [discriminate|discriminate|].
  destruct (H (boot (<["theme" := "dark"]> (tokens "A1" "R1"))
               AuthContext.initial)) as [H1 _].
  exact H1.
Defined.

(** X2. Only the two login handlers ever store anything. Every other
    handler can only shrink the storage: after it, each key that is
    present held the same value before. This also holds for an identity
    refresh that is resumed in a later world, so a late response never
    puts a token back. The navigation bar's refresh and the two handlers
    of the password form leave the storage exactly as it was. *)
Theorem only_login_stores (net : Awaited -> Settled) :
  (forall w : World AuthContext.AuthState,
     localStorage (fst (exec net AuthContext.fetchUser w)) ⊆ localStorage w /\
     localStorage (fst (exec net AuthContext.logout w)) ⊆ localStorage w /\
     forall (o : Settled) (w' : World AuthContext.AuthState),
       localStorage (fst (resume (snd (run AuthContext.fetchUser w)) o w'))
         ⊆ localStorage w') /\
  (forall w : World HomePage.State,
     localStorage (fst (exec net HomePage.fetchUserInfo w)) ⊆ localStorage w /\
     localStorage (fst (exec net HomePage.handleLogout w)) ⊆ localStorage w) /\
  (forall w : World Home.State,
     localStorage (fst (exec net Home.fetchUserInfo w)) ⊆ localStorage w /\
     localStorage (fst (exec net Home.handleLogout w)) ⊆ localStorage w) /\
  (forall w : World Navbar.State,
     localStorage (fst (exec net Navbar.fetchUserInfo w)) = localStorage w /\
     localStorage (fst (exec net Navbar.handleLogout w)) ⊆ localStorage w) /\
  (forall (f : ChangePasswordPage.FormData)
          (shown : gmap string JsVal) (name : ChangePasswordPage.Field)
          (value : string) (w : World ChangePasswordPage.State),
     localStorage (fst (exec net (ChangePasswordPage.handleSubmit f) w)) =
       localStorage w /\
     localStorage
       (fst (exec net (ChangePasswordPage.handleChange shown name value) w)) =
       localStorage w).
Proof.
  repeat split; intros.
  - apply (exec_shrinks token_key), fetchUser_footprint.
  - apply (exec_shrinks token_key), logout_footprint.
  - apply (resume_shrinks token_key), run_status, fetchUser_footprint.
  - apply (exec_shrinks token_key), HomePage_fetchUserInfo_footprint.
  - apply (exec_shrinks token_key), HomePage_handleLogout_footprint.
  - apply (exec_shrinks token_key), Home_fetchUserInfo_footprint.
  - apply (exec_shrinks token_key), Home_handleLogout_footprint.
  - apply exec_untouched, Navbar_fetchUserInfo_footprint.
  - apply (exec_shrinks token_key), Navbar_handleLogout_footprint.
  - apply exec_untouched, ChangePasswordPage_handleSubmit_footprint.
  - apply exec_untouched, handleChange_footprint.
Qed.

(** ** Logging out, in full *)

Lemma cleared_cleared (storage : gmap string string) :
  cleared (cleared storage) = cleared storage.
Proof.
  destruct (store_empty_cleared storage) as [Ha Hr].
  unfold cleared at 1. now rewrite (delete_id _ _ Ha), (delete_id _ _ Hr).
Qed.

Lemma handleLogout_logged_out (net : Awaited -> Settled)
    (w : World HomePage.State) :
  logged_out net w (exec net HomePage.handleLogout w).
Proof.
  unfold logged_out, has_session. autounfold with handlers. async_unfold.
  destruct (truthy_item (localStorage w !! "access_token")); cbn;
    [destruct (net _); cbn|]; repeat split; destruct w; reflexivity.
Qed.

(** X3. The logout button of each dashboard and of the navigation bar
    always ends normally, with both tokens removed and the login route
    pushed once. It sends the revoke request, carrying the stored tokens,
    exactly when an access token is stored, and logs to the console
    exactly when that request is rejected. *)
Theorem handleLogout_outcome (net : Awaited -> Settled) :
  (forall w : World HomePage.State,
     logged_out net w (exec net HomePage.handleLogout w)) /\
  (forall w : World Home.State,
     logged_out net w (exec net Home.handleLogout w)) /\
  (forall w : World Navbar.State,
     logged_out net w (exec net Navbar.handleLogout w)).
Proof.
  split; [exact (handleLogout_logged_out net)|].
  split; intros w; unfold logged_out, has_session;
    autounfold with handlers; async_unfold;
    (destruct (truthy_item (localStorage w !! "access_token")); cbn;
     [destruct (net _); cbn|]; repeat split; destruct w; reflexivity).
Qed.

(** X4. Logging out is idempotent: a second logout of the context,
    whatever the network does, sends no request and leaves the storage
    and the cache as the first one left them. *)
Theorem logout_idempotent (net1 net2 : Awaited -> Settled)
    (w : World AuthContext.AuthState) :
  let w1 := fst (exec net1 AuthContext.logout w) in
  let w2 := fst (exec net2 AuthContext.logout w1) in
  network w2 = network w1 /\
  localStorage w2 = localStorage w1 /\
  state w2 = state w1.
Proof.
  intros w1 w2.
  assert (H1 : localStorage w1 = cleared (localStorage w) /\
               AuthContext.user (state w1) = JNull).
  { subst w1. autounfold with handlers. async_unfold.
    destruct (truthy_item (localStorage w !! "access_token")); cbn;
      [destruct (net1 _); cbn|]; auto. }
  destruct H1 as [Hst Hu].
  assert (Hs : truthy_item (localStorage w1 !! "access_token") = false).
  { rewrite Hst. apply cleared_no_session. }
  subst w2. autounfold with handlers. async_unfold. rewrite Hs. cbn.
  split; [reflexivity|]. split.
  - fold (cleared (localStorage w1)). rewrite Hst. apply cleared_cleared.
  - destruct (state w1) as [u l]. cbn in Hu. subst u. reflexivity.
Qed.

(** ** Logging in, in full *)

(** X5. The login page always ends with [loading] lowered and has sent
    the one exchange. When the exchange is rejected, or fulfilled with a
    [null] payload, the failure message is shown and nothing else
    changes. When the payload carries a truthy access token, the pair is
    stored and the dashboard route is pushed. When the payload is an
    object without a truthy access token, nothing is stored, no route is
    pushed and no message is shown. *)
Theorem Login_handleSubmit_outcome (net : Awaited -> Settled)
    (username password : string) (w : World Login.State) :
  let exchange := AuthContext.login_request username password in
  let r := exec net (Login.handleSubmit username password) w in
  snd r = Returned tt /\
  Login.loading (state (fst r)) = false /\
  network (fst r) = exchange :: network w /\
  match net (Http exchange) with
  | Rejected _ =>
      localStorage (fst r) = localStorage w /\
      history (fst r) = history w /\
      Login.error (state (fst r)) = login_failed
  | Fulfilled resp =>
      match data resp with
      | JNull | JUndefined =>
          localStorage (fst r) = localStorage w /\
          history (fst r) = history w /\
          Login.error (state (fst r)) = login_failed
      | _ =>
          if truthy (field_of resp "access_token") then
            localStorage (fst r) = saved resp (localStorage w) /\
            history (fst r) = "/home" :: history w /\
            Login.error (state (fst r)) = ""
          else
            localStorage (fst r) = localStorage w /\
            history (fst r) = history w /\
            Login.error (state (fst r)) = ""
      end
  end.
Proof.
  intros exchange r. subst r exchange. autounfold with handlers.
  unfold login_failed, saved, field_of. async_unfold.
  destruct (net _) as [resp|e]; cbn; [|auto 6].
  destruct (data resp) as [| |b|s|fields]; cbn; auto 6.
  destruct (truthy (default JUndefined (fields !! "access_token"))); cbn;
    auto 6.
Qed.

(** X6. What [login] of the context hands to its caller: a rejected
    exchange is rethrown as it is, a [null] payload throws a type error,
    and otherwise the result is [true] exactly when the payload carries a
    truthy access token, whatever the identity refresh that follows
    does. *)
Theorem login_result (net : Awaited -> Settled)
    (username password : string) (w : World AuthContext.AuthState) :
  snd (exec net (AuthContext.login username password) w) =
  match net (Http (AuthContext.login_request username password)) with
  | Rejected e => Threw e
  | Fulfilled resp =>
      match data resp with
      | JNull | JUndefined => Threw TypeError
      | _ => Returned (truthy (field_of resp "access_token"))
      end
  end.
Proof.
  autounfold with handlers. unfold field_of. async_unfold.
  destruct (net (Http (AuthContext.login_request _ _))) as [resp|e]; cbn;
    [|reflexivity].
  destruct (data resp) as [| |b|s|fields]; cbn; try reflexivity.
  destruct (truthy (default JUndefined (fields !! "access_token"))) eqn:Hacc;
    cbn; [|reflexivity].
  rewrite lookup_insert_ne by done. rewrite lookup_insert_eq.
  rewrite (truthy_js_string _ Hacc). cbn.
  destruct (net (Http (AuthContext.me_request _))) as [r'|e]; cbn;
    [reflexivity|].
  destruct (status_is e 401); reflexivity.
Qed.

Lemma Login_handleSubmit_accepted (net : Awaited -> Settled)
    (username password : string) (resp : Response) (w : World Login.State) :
  net (Http (AuthContext.login_request username password)) = Fulfilled resp ->
  truthy (field_of resp "access_token") = true ->
  let w1 := fst (exec net (Login.handleSubmit username password) w) in
  localStorage w1 = saved resp (localStorage w) /\
  history w1 = "/home" :: history w.
Proof.
  intros Hnet Hacc. destruct (accepted_data resp Hacc) as [Hn Hu].
  autounfold with handlers. async_unfold. rewrite Hnet. cbn.
  rewrite !get_prop_field by assumption. cbn. rewrite Hacc. cbn. auto.
Qed.

(** X7. A login response that carries an access token but no refresh
    token is taken as a success: the login page stores the text
    [undefined] as the refresh token, and the logout that follows sends
    that text to the revoke endpoint. *)
Theorem missing_refresh_token_is_stored_as_text
    (net1 net2 : Awaited -> Settled) (username password : string)
    (resp : Response) (w : World Login.State) :
  net1 (Http (AuthContext.login_request username password)) =
    Fulfilled resp ->
  truthy (field_of resp "access_token") = true ->
  field_of resp "refresh_token" = JUndefined ->
  let w1 := fst (exec net1 (Login.handleSubmit username password) w) in
  let w2 := fst (exec net2 HomePage.handleLogout (enter w1 HomePage.initial)) in
  history w1 = "/home" :: history w /\
  localStorage w1 !! "refresh_token" = Some "undefined" /\
  network w2 =
    AuthContext.logout_request
      (Some (js_string (field_of resp "access_token"))) (Some "undefined")
    :: network w1.
Proof.
  intros Hnet Hacc Href w1 w2.
  destruct (Login_handleSubmit_accepted net1 username password resp w
              Hnet Hacc) as [Hst Hh].
  fold w1 in Hst, Hh.
  assert (Hr : localStorage w1 !! "refresh_token" = Some "undefined").
  { rewrite Hst. unfold saved. rewrite lookup_insert_eq, Href. reflexivity. }
  assert (Ha : localStorage w1 !! "access_token" =
               Some (js_string (field_of resp "access_token"))).
  { rewrite Hst. apply saved_access_token. }
  split; [exact Hh|]. split; [exact Hr|].
  destruct (handleLogout_logged_out net2 (enter w1 HomePage.initial))
    as (_ & _ & _ & _ & Hn2 & _).
  fold w2 in Hn2. cbn in Hn2. unfold has_session in Hn2.
  rewrite Ha, Hr in Hn2. rewrite (truthy_js_string _ Hacc) in Hn2.
  exact Hn2.
Qed.

Lemma missing_refresh_token_is_stored_as_text_witness :
  let resp := {| status := 200;
                 data := JObj {[ "access_token" := JStr "A1" ]} |} in
  let w1 := fst (exec (net_const (Fulfilled resp))
                   (Login.handleSubmit "alice" "pw")
                   (boot ∅ Login.initial)) in
  localStorage w1 !! "refresh_token" = Some "undefined".
Proof.
  intros resp w1.
  exact (proj1 (proj2 (missing_refresh_token_is_stored_as_text
           (net_const (Fulfilled resp)) (net_const (Rejected err_network))
           "alice" "pw" resp (boot ∅ Login.initial)
           eq_refl eq_refl eq_refl))).
Defined.

(** X8. Two logins of the context in flight at once: the pair in the
    storage is that of the exchange that is answered last, even when
    that login was started first. Each login is then waiting for its own
    identity request, sent with its own token, and when the identity
    response of the other login arrives later it is written to the cache
    while the storage keeps the pair of the last exchange. *)
Theorem concurrent_logins_last_response_wins
    (userA passA userB passB : string) (respA respB : Response)
    (w : World AuthContext.AuthState) :
  login_accepted (Fulfilled respA) = true ->
  login_accepted (Fulfilled respB) = true ->
  let a := run (AuthContext.login userA passA) w in
  let b := run (AuthContext.login userB passB) (fst a) in
  let b' := resume (snd b) (Fulfilled respB) (fst b) in
  let a' := resume (snd a) (Fulfilled respA) (fst b') in
  localStorage (fst a') !! "access_token" =
    Some (js_string (field_of respA "access_token")) /\
  localStorage (fst a') !! "refresh_token" =
    Some (js_string (field_of respA "refresh_token")) /\
  pending (snd a') =
    Some (Http (AuthContext.me_request
                  (Some (js_string (field_of respA "access_token"))))) /\
  pending (snd b') =
    Some (Http (AuthContext.me_request
                  (Some (js_string (field_of respB "access_token"))))) /\
  forall identityB : Response,
    let late := resume (snd b') (Fulfilled identityB) (fst a') in
    AuthContext.user (state (fst late)) = data identityB /\
    localStorage (fst late) = localStorage (fst a').
Proof.
  intros HA HB a b b' a'.
  destruct (login_resume_accepted userB passB (fst a) (fst b) respB HB)
    as (_ & HpB & HlateB).
  destruct (login_resume_accepted userA passA w (fst b') respA HA)
    as (HwA & HpA & _).
  fold a in HwA, HpA. fold a' in HwA, HpA. fold b b' in HpB, HlateB.
  assert (Hst : localStorage (fst a') =
                saved respA (localStorage (fst b'))).
  { rewrite HwA. reflexivity. }
  split; [rewrite Hst; apply saved_access_token|].
  split; [rewrite Hst; apply lookup_insert_eq|].
  split; [exact HpA|]. split; [exact HpB|].
  intros identityB late. subst late. rewrite HlateB. cbn. auto.
Qed.

Lemma concurrent_logins_last_response_wins_witness :
  let respA := {| status := 200;
                  data := JObj {[ "access_token" := JStr "A1";
                                  "refresh_token" := JStr "R1" ]} |} in
  let respB := {| status := 200;
                  data := JObj {[ "access_token" := JStr "B1";
                                  "refresh_token" := JStr "S1" ]} |} in
  let a := run (AuthContext.login "alice" "pw")
             (boot ∅ AuthContext.initial) in
  let b := run (AuthContext.login "bob" "pw") (fst a) in
  let b' := resume (snd b) (Fulfilled respB) (fst b) in
  let a' := resume (snd a) (Fulfilled respA) (fst b') in
  localStorage (fst a') !! "access_token" = Some "A1".
Proof.
  intros respA respB a b b' a'.
  exact (proj1 (concurrent_logins_last_response_wins
           "alice" "pw" "bob" "pw" respA respB
           (boot ∅ AuthContext.initial) eq_refl eq_refl)).
Defined.

(** X9. The session survives the change of page: after a login on the
    login page whose exchange succeeded, the dashboard mounted on the
    storage the page left finds the token, sends the identity request
    with it as bearer and pushes no route; the start-up of the context on
    that storage does the same. *)
Theorem session_found_after_login (net : Awaited -> Settled)
    (username password : string) (resp : Response) (w : World Login.State) :
  net (Http (AuthContext.login_request username password)) = Fulfilled resp ->
  truthy (field_of resp "access_token") = true ->
  let w1 := fst (exec net (Login.handleSubmit username password) w) in
  let refresh := Http (AuthContext.me_request
                   (Some (js_string (field_of resp "access_token")))) in
  let dashboard := run HomePage.fetchUserInfo (enter w1 HomePage.initial) in
  let context := run AuthContext.bootstrap
                   (boot (localStorage w1) AuthContext.initial) in
  pending (snd dashboard) = Some refresh /\
  history (fst dashboard) = history w1 /\
  pending (snd context) = Some refresh.
Proof.
  intros Hnet Hacc w1 refresh dashboard context.
  destruct (Login_handleSubmit_accepted net username password resp w
              Hnet Hacc) as [Hst _].
  fold w1 in Hst.
  assert (Ha : localStorage w1 !! "access_token" =
               Some (js_string (field_of resp "access_token"))).
  { rewrite Hst. apply saved_access_token. }
  pose proof (truthy_js_string _ Hacc) as Ht.
  subst dashboard context refresh. autounfold with handlers. async_unfold.
  rewrite Ha, Ht. cbn. auto.
Qed.

Lemma session_found_after_login_witness :
  let resp := {| status := 200;
                 data := JObj {[ "access_token" := JStr "A1";
                                 "refresh_token" := JStr "R1" ]} |} in
  let w1 := fst (exec (net_const (Fulfilled resp))
                   (Login.handleSubmit "alice" "pw")
                   (boot ∅ Login.initial)) in
  pending (snd (run HomePage.fetchUserInfo (enter w1 HomePage.initial))) =
    Some (Http (AuthContext.me_request (Some "A1"))).
Proof.
  intros resp w1.
  exact (proj1 (session_found_after_login (net_const (Fulfilled resp))
           "alice" "pw" resp (boot ∅ Login.initial) eq_refl eq_refl)).
Defined.

(** ** What the context keeps *)



(** X11. No handler leaves its loading flag raised: [fetchUser] of the
    context, the identity fetch of each dashboard and the login page end
    with [loading] false on every path, and the password form ends with
    [isLoading] false whenever the form passed validation (and leaves it
    as it was otherwise). *)
Theorem loading_flags_are_lowered (net : Awaited -> Settled) :
  (forall w : World AuthContext.AuthState,
     AuthContext.loading (state (fst (exec net AuthContext.fetchUser w)))
       = false) /\
  (forall w : World HomePage.State,
     HomePage.loading (state (fst (exec net HomePage.fetchUserInfo w)))
       = false) /\
  (forall w : World Home.State,
     Home.loading (state (fst (exec net Home.fetchUserInfo w))) = false) /\
  (forall (username password : string) (w : World Login.State),
     Login.loading
       (state (fst (exec net (Login.handleSubmit username password) w)))
       = false) /\
  (forall (f : ChangePasswordPage.FormData)
          (w : World ChangePasswordPage.State),
     ChangePasswordPage.isLoading
       (state (fst (exec net (ChangePasswordPage.handleSubmit f) w))) =
     if form_ok f then false
     else ChangePasswordPage.isLoading (state w)).
Proof.
  repeat apply conj.
  - intros w. autounfold with handlers. async_unfold.
    destruct (truthy_item _); cbn; [|reflexivity].
    destruct (net _) as [r|e]; cbn; [reflexivity|].
    destruct (status_is e 401); reflexivity.
  - intros w. autounfold with handlers. async_unfold.
    destruct (truthy_item _); cbn; [|reflexivity].
    destruct (net _) as [r|e]; cbn; [reflexivity|].
    destruct (isAxiosError e && status_is e 401); reflexivity.
  - intros w. autounfold with handlers. async_unfold.
    destruct (truthy_item _); cbn; [|reflexivity].
    destruct (net _) as [r|e]; cbn; [reflexivity|].
    destruct (status_is e 401); reflexivity.
  - intros username password w. autounfold with handlers. async_unfold.
    destruct (net _) as [resp|e]; cbn; [|reflexivity].
    destruct (data resp) as [| |b|s|fields]; cbn; try reflexivity.
    destruct (truthy _); reflexivity.
  - intros f w. destruct (form_ok f) eqn:Hok.
    2: { now rewrite (handleSubmit_refused net f w Hok). }
    autounfold with handlers. async_unfold.
    rewrite newErrors_size, Hok. cbn.
    destruct (truthy_item _); cbn; [|reflexivity].
    destruct (net (Http _)) as [resp|e]; cbn; [|reflexivity].
    destruct (ok resp); cbn.
    + destruct (net (ReadJson resp)); cbn; reflexivity.
    + destruct (net (ReadJson resp)) as [errorData|e]; cbn; [|reflexivity].
      destruct (Nat.eqb (status resp) 400); cbn; [|reflexivity].
      destruct (data errorData); cbn; reflexivity.
Qed.

(** ** The password form, in full *)

Lemma newErrors_newPassword (f : ChangePasswordPage.FormData) :
  ChangePasswordPage.oldPassword f = ChangePasswordPage.newPassword f ->
  ChangePasswordPage.newErrors f !! "newPassword" = Some must_differ.
Proof.
  intros Heq. unfold ChangePasswordPage.newErrors, must_differ.
  rewrite Heq, String.eqb_refl. apply lookup_insert_eq.
Qed.

Lemma newErrors_oldPassword (f : ChangePasswordPage.FormData) :
  is_Some (ChangePasswordPage.newErrors f !! "oldPassword") <->
  ChangePasswordPage.oldPassword f = "".
Proof.
  destruct f as [old new confirm].
  unfold ChangePasswordPage.newErrors, truthy.
  cbn [ChangePasswordPage.oldPassword ChangePasswordPage.newPassword
       ChangePasswordPage.confirmPassword].
  destruct (String.eqb_spec old "") as [Hold|Hold]; cbn [negb];
    repeat match goal with
    | |- context [if ?b then _ else _] => destruct b
    end;
    rewrite ?lookup_insert_ne by done;
    rewrite ?lookup_insert_eq, ?lookup_empty;
    split; intros H; try assumption; try (eexists; reflexivity);
    try contradiction; destruct H as [x H]; discriminate.
Qed.

Lemma newErrors_confirmPassword (f : ChangePasswordPage.FormData) :
  is_Some (ChangePasswordPage.newErrors f !! "confirmPassword") <->
  ChangePasswordPage.confirmPassword f <> ChangePasswordPage.newPassword f \/
  ChangePasswordPage.confirmPassword f = "".
Proof.
  destruct f as [old new confirm].
  unfold ChangePasswordPage.newErrors, truthy.
  cbn [ChangePasswordPage.oldPassword ChangePasswordPage.newPassword
       ChangePasswordPage.confirmPassword].
  destruct (String.eqb_spec confirm "") as [Hc|Hc],
    (String.eqb_spec new confirm) as [Hnc|Hnc]; cbn [negb];
    repeat match goal with
    | |- context [if ?b then _ else _] => destruct b
    end;
    rewrite ?lookup_insert_ne by done;
    rewrite ?lookup_insert_eq, ?lookup_insert_ne, ?lookup_empty by done;
    split; intros H; try (eexists; reflexivity); auto;
    try (destruct H as [x H]; discriminate);
    destruct H as [H|H]; congruence.
Qed.

(** X12. Which messages [validateForm] shows. The old password has a
    message exactly when it is empty, the confirmation exactly when it
    is empty or differs from the new password. When the new password
    equals the old one, the message under the new password is the one
    asking for a different password, also when the new password is
    empty or too short: so the empty form shows that message, not the
    request to enter a new password. *)
Theorem validateForm_messages (f : ChangePasswordPage.FormData) :
  (is_Some (ChangePasswordPage.newErrors f !! "oldPassword") <->
   ChangePasswordPage.oldPassword f = "") /\
  (is_Some (ChangePasswordPage.newErrors f !! "confirmPassword") <->
   ChangePasswordPage.confirmPassword f <> ChangePasswordPage.newPassword f \/
   ChangePasswordPage.confirmPassword f = "") /\
  (ChangePasswordPage.oldPassword f = ChangePasswordPage.newPassword f ->
   ChangePasswordPage.newErrors f !! "newPassword" = Some must_differ) /\
  ChangePasswordPage.newErrors ChangePasswordPage.emptyForm !! "newPassword"
    = Some must_differ.
Proof.
  split; [apply newErrors_oldPassword|].
  split; [apply newErrors_confirmPassword|].
  split; [apply newErrors_newPassword|].
  apply newErrors_newPassword. reflexivity.
Qed.

Lemma validateForm_messages_witness :
  ChangePasswordPage.newErrors
    {| ChangePasswordPage.oldPassword := "abc";
       ChangePasswordPage.newPassword := "abc";
       ChangePasswordPage.confirmPassword := "abc" |} !! "newPassword"
  = Some must_differ.
Proof.
  apply (proj1 (proj2 (proj2 (validateForm_messages
           {| ChangePasswordPage.oldPassword := "abc";
              ChangePasswordPage.newPassword := "abc";
              ChangePasswordPage.confirmPassword := "abc" |})))).
  reflexivity.
Defined.

Lemma newErrors_empty (f : ChangePasswordPage.FormData) :
  form_ok f = true -> ChangePasswordPage.newErrors f = ∅.
Proof.
  intros Hok. apply map_size_empty_iff.
  apply Nat.eqb_eq. now rewrite newErrors_size.
Qed.

(** X13. What submitting an accepted form with a session does. The one
    [PUT] goes out and no route is pushed by the handler itself. When
    the answer is a success whose body can be read, the success message
    is shown, the three fields are emptied and the dashboard route is
    set on a timer of 2000 ms. When the answer has status 400 and a
    body, the message of the service ([detail], or the default text
    when it is missing) is shown under the old password. Any other
    answered status shows the failure message; a request or a body read
    that fails shows the network message. *)
Theorem handleSubmit_outcome (net : Awaited -> Settled)
    (f : ChangePasswordPage.FormData) (w : World ChangePasswordPage.State) :
  form_ok f = true ->
  has_session (localStorage w) = true ->
  let request := ChangePasswordPage.password_request
                   (localStorage w !! "access_token") f in
  let r := exec net (ChangePasswordPage.handleSubmit f) w in
  let s := state (fst r) in
  snd r = Returned tt /\
  network (fst r) = request :: network w /\
  history (fst r) = history w /\
  match net (Http request) with
  | Rejected _ =>
      ChangePasswordPage.message s = network_error /\
      timers (fst r) = timers w
  | Fulfilled resp =>
      match net (ReadJson resp) with
      | Rejected _ =>
          ChangePasswordPage.message s = network_error /\
          timers (fst r) = timers w
      | Fulfilled body =>
          if ok resp then
            ChangePasswordPage.message s = update_done /\
            ChangePasswordPage.formData s = ChangePasswordPage.emptyForm /\
            ChangePasswordPage.errors s = ∅ /\
            timers (fst r) = (2000, "/home") :: timers w
          else if Nat.eqb (status resp) 400 then
            match data body with
            | JNull | JUndefined =>
                ChangePasswordPage.message s = network_error
            | _ =>
                ChangePasswordPage.errors s =
                  {[ "oldPassword" :=
                       ChangePasswordPage.js_or (field_of body "detail")
                         (JStr update_failed) ]} /\
                ChangePasswordPage.message s = ""
            end /\
            timers (fst r) = timers w
          else
            ChangePasswordPage.message s = update_failed /\
            timers (fst r) = timers w
      end
  end.
Proof.
  intros Hok Hs request r s. subst s r request.
  unfold has_session in Hs.
  unfold update_done, update_failed, network_error, field_of.
  autounfold with handlers. async_unfold.
  rewrite newErrors_size, Hok. cbn. rewrite Hs. cbn.
  rewrite (newErrors_empty f Hok).
  destruct (net (Http _)) as [resp|e]; cbn; [|auto].
  destruct (ok resp); cbn.
  - destruct (net (ReadJson resp)) as [body|e]; cbn; auto 10.
  - destruct (net (ReadJson resp)) as [body|e]; cbn; [|auto].
    destruct (Nat.eqb (status resp) 400); cbn; [|auto 10].
    destruct (data body); cbn; auto 10.
Qed.

Lemma handleSubmit_outcome_witness :
  let f := {| ChangePasswordPage.oldPassword := "secret1";
              ChangePasswordPage.newPassword := "secret2";
              ChangePasswordPage.confirmPassword := "secret2" |} in
  let r := exec (net_const (Fulfilled {| status := 200; data := JObj ∅ |}))
             (ChangePasswordPage.handleSubmit f)
             (boot (tokens "A1" "R1") ChangePasswordPage.initial) in
  timers (fst r) = [(2000, "/home")] /\ history (fst r) = [].
Proof.
  intros f r.
  destruct (handleSubmit_outcome
              (net_const (Fulfilled {| status := 200; data := JObj ∅ |}))
              f (boot (tokens "A1" "R1") ChangePasswordPage.initial)
              eq_refl eq_refl) as (_ & _ & Hh & _ & _ & _ & Ht).
  split; [exact Ht|exact Hh].
Defined.

(** X14. Typing into an input of the password form changes that field
    and no other, keeps the messages of the other inputs, and blanks
    the message of the edited input, so that it is no longer shown.
    Nothing outside the component is touched. *)
Theorem handleChange_effect (net : Awaited -> Settled)
    (name : ChangePasswordPage.Field) (value : string)
    (w : World ChangePasswordPage.State) :
  let r := exec net (ChangePasswordPage.handleChange
                       (ChangePasswordPage.errors (state w)) name value) w in
  let s := state (fst r) in
  snd r = Returned tt /\
  ChangePasswordPage.get_field name (ChangePasswordPage.formData s) = value /\
  (forall other : ChangePasswordPage.Field,
     other <> name ->
     ChangePasswordPage.get_field other (ChangePasswordPage.formData s) =
     ChangePasswordPage.get_field other
       (ChangePasswordPage.formData (state w))) /\
  truthy (ChangePasswordPage.error_of (ChangePasswordPage.errors s)
            (ChangePasswordPage.field_name name)) = false /\
  (forall k : string,
     k <> ChangePasswordPage.field_name name ->
     ChangePasswordPage.errors s !! k =
     ChangePasswordPage.errors (state w) !! k) /\
  ChangePasswordPage.message s = ChangePasswordPage.message (state w) /\
  localStorage (fst r) = localStorage w /\
  history (fst r) = history w /\
  network (fst r) = network w.
Proof.
  intros r s. subst s r. autounfold with handlers. async_unfold.
  destruct (truthy (ChangePasswordPage.error_of _ _)) eqn:Hshown; cbn.
  - repeat split.
    + destruct name; reflexivity.
    + intros other Hne. destruct other, name; try congruence; reflexivity.
    + unfold ChangePasswordPage.error_of. now rewrite lookup_insert_eq.
    + intros k Hk. now apply lookup_insert_ne.
  - repeat split.
    + destruct name; reflexivity.
    + intros other Hne. destruct other, name; try congruence; reflexivity.
    + exact Hshown.
Qed.

(** ** The dashboards *)

(** X15. Loading the dashboard sends the identity request at most once
    more through its navigation bar: the bar, which is given the user
    the dashboard fetched, repeats the request only when the first one
    was fulfilled with an empty payload. After a redirect, a 401 or any
    other failure the bar sends nothing. *)
Theorem dashboard_navbar_requests (net : Awaited -> Settled)
    (storage : gmap string string) :
  let refresh := AuthContext.me_request (storage !! "access_token") in
  let page := fst (exec net HomePage.fetchUserInfo
                     (boot storage HomePage.initial)) in
  let view := HomePage.render (state page) in
  let bar := fst (exec net (HomePage_children view)
                    (enter page (HomePage_navbar view))) in
  network bar =
    if has_session storage then
      match net (Http refresh) with
      | Fulfilled resp =>
          if truthy (data resp) then [refresh] else [refresh; refresh]
      | Rejected _ => [refresh]
      end
    else [].
Proof.
  intros refresh page view bar. subst bar view page refresh.
  unfold has_session. autounfold with handlers. async_unfold.
  destruct (truthy_item (storage !! "access_token")) eqn:Hs; cbn.
  2: { autounfold with handlers. async_unfold. rewrite Hs. reflexivity. }
  destruct (net (Http (AuthContext.me_request _))) as [resp|e] eqn:Hnet; cbn.
  - autounfold with handlers. async_unfold.
    destruct (truthy (data resp)) eqn:Hu; cbn; [reflexivity|].
    rewrite Hs. cbn. rewrite Hnet. reflexivity.
  - destruct (isAxiosError e && status_is e 401); cbn;
      autounfold with handlers; async_unfold.
    + rewrite lookup_delete_ne by done. rewrite lookup_delete_eq.
      reflexivity.
    + reflexivity.
Qed.

(** X16. The two dashboards handle the identity fetch alike: on a
    network whose rejections are all errors of axios, mounting either one
    on the same storage leaves the same storage, the same pushed routes,
    the same requests, and the same user, loading flag and error
    message. *)
Theorem dashboards_agree (net : Awaited -> Settled)
    (storage : gmap string string) :
  axios_network net ->
  let next := fst (exec net HomePage.fetchUserInfo
                     (boot storage HomePage.initial)) in
  let react := fst (exec net Home.fetchUserInfo (boot storage Home.initial)) in
  localStorage next = localStorage react /\
  history next = history react /\
  network next = network react /\
  HomePage.user (state next) = Home.user (state react) /\
  HomePage.loading (state next) = Home.loading (state react) /\
  HomePage.error (state next) = Home.error (state react).
Proof.
  intros Hax next react. subst next react.
  autounfold with handlers. async_unfold.
  destruct (truthy_item (storage !! "access_token")); cbn; [|auto 10].
  destruct (net _) as [resp|e] eqn:Hnet; cbn; [auto 10|].
  rewrite (Hax _ _ Hnet). cbn.
  destruct (status_is e 401); cbn; auto 10.
Qed.

Lemma dashboards_agree_witness :
  let net := net_const (Rejected err401) in
  localStorage (fst (exec net HomePage.fetchUserInfo
                       (boot (tokens "A1" "R1") HomePage.initial))) =
  localStorage (fst (exec net Home.fetchUserInfo
                       (boot (tokens "A1" "R1") Home.initial))).
Proof.
  intros net.
  refine (proj1 (dashboards_agree net (tokens "A1" "R1") _)).
  intros p e H. injection H as <-. reflexivity.
Defined.

(** ** Failed logins *)

(** C9, as the code has it. The code counts a login as failed when the
    exchange is rejected (wrong credentials, no response) or its answer
    carries no truthy access token (a [null] payload included): then the
    storage is left as it was, [login] of the context does not return
    [true] and changes nothing of the cache, and the login page pushes no
    route. An answer that carries a truthy access token is a success for
    the code however malformed it is otherwise: both handlers overwrite
    the stored pair with the text of its two token fields. *)
Theorem failed_login_keeps_session (username password : string)
    (net : Awaited -> Settled) :
  let exchange := Http (AuthContext.login_request username password) in
  (login_accepted (net exchange) = false ->
     (forall w : World AuthContext.AuthState,
        let r := exec net (AuthContext.login username password) w in
        localStorage (fst r) = localStorage w /\
        state (fst r) = state w /\
        snd r <> Returned true) /\
     (forall w : World Login.State,
        let r := exec net (Login.handleSubmit username password) w in
        localStorage (fst r) = localStorage w /\
        history (fst r) = history w)) /\
  (forall resp : Response,
     net exchange = Fulfilled resp ->
     truthy (field_of resp "access_token") = true ->
     (forall w : World AuthContext.AuthState,
        let r1 := run (AuthContext.login username password) w in
        let r2 := resume (snd r1) (Fulfilled resp) (fst r1) in
        localStorage (fst r2) = saved resp (localStorage w)) /\
     (forall w : World Login.State,
        let r := exec net (Login.handleSubmit username password) w in
        localStorage (fst r) = saved resp (localStorage w))).
Proof.
  intros exchange. split.
  - intros Hacc. split; intros w r.
    + destruct (login_exec_refused net username password w Hacc) as [Hw Hr].
      fold r in Hw, Hr. rewrite Hw. auto.
    + exact (handleSubmit_exec_refused net username password w Hacc).
  - intros resp Hnet Hacc. split; intros w.
    + intros r1 r2.
      destruct (login_resume_accepted username password w (fst r1) resp Hacc)
        as (Hw & _).
      fold r1 r2 in Hw. rewrite Hw. reflexivity.
    + apply (Login_handleSubmit_accepted net username password resp w
               Hnet Hacc).
Qed.

Lemma failed_login_keeps_session_witness :
  let w := boot (tokens "A0" "R0") AuthContext.initial in
  let r := exec (net_const (Rejected err401))
             (AuthContext.login "alice" "bad") w in
  localStorage (fst r) !! "access_token" = Some "A0" /\
  localStorage (fst r) !! "refresh_token" = Some "R0".
Proof.
  intros w r.
  destruct (proj1 (proj1 (failed_login_keeps_session "alice" "bad"
                            (net_const (Rejected err401))) eq_refl) w)
    as (Hst & _).
  fold r in Hst. rewrite Hst. split; reflexivity.
Defined.

(** C9, as stated, fails for a malformed answer: an answer with an
    access token and no refresh token is not what the service promises,
    yet on it the stored pair A0, R0 is replaced by A1 and the text
    [undefined], by [login] of the context and by the login page
    alike. *)
Lemma malformed_login_overwrites_session :
  ~ (forall (net : Awaited -> Settled) (username password : string)
            (w : World AuthContext.AuthState),
       login_fails (net (Http (AuthContext.login_request username password)))
         = true ->
       localStorage (fst (exec net (AuthContext.login username password) w))
       = localStorage w) /\
  ~ (forall (net : Awaited -> Settled) (username password : string)
            (w : World Login.State),
       login_fails (net (Http (AuthContext.login_request username password)))
         = true ->
       localStorage (fst (exec net (Login.handleSubmit username password) w))
       = localStorage w).
Proof.
  split; intros H.
  - specialize (H (net_const (Fulfilled
                     {| status := 200;
                        data := JObj {[ "access_token" := JStr "A1" ]} |}))
                  "alice" "pw" (boot (tokens "A0" "R0") AuthContext.initial)
                  eq_refl).
    apply (f_equal (fun m => m !! "access_token")) in H.
    vm_compute in H. discriminate.
  - specialize (H (net_const (Fulfilled
                     {| status := 200;
                        data := JObj {[ "access_token" := JStr "A1" ]} |}))
                  "alice" "pw" (boot (tokens "A0" "R0") Login.initial)
                  eq_refl).
    apply (f_equal (fun m => m !! "refresh_token")) in H.
    vm_compute in H. discriminate.
Qed.
